(** * sweep_predict: the next-edit prediction script

    A shallow embedding of [packages/sweep-addon/python/sweep_predict.py]
    and the properties of its prompt serialisation, model lookup and
    request/response protocol.

    Conventions of the embedding:
    - a Python [str] is a list of Unicode code points;
    - a value produced by [json.loads] is a [value]; a [dict] is an
      association list in insertion order (the order [items()] shows),
      whose keys are distinct;
    - Python's dynamic typing is kept: every operation the script applies to
      a request is defined on all values and raises where CPython raises;
    - effects are explicit: a computation yields the trace of the external
      events it caused together with the way it ended. *)

From Stdlib Require Import List String Ascii Bool ZArith NArith Lia.
From Stdlib Require Import Floats.SpecFloat.
Import ListNotations.

Local Open Scope Z_scope.

(** ** Text *)

Definition char := N.
Definition pystr := list char.

(** A source literal, read as its code points (the literals of the script
    are all ASCII). *)
Definition lit (s : string) : pystr :=
  List.map N_of_ascii (list_ascii_of_string s).

Fixpoint pystr_eqb (a b : pystr) : bool :=
  match a, b with
  | [], [] => true
  | x :: a', y :: b' => N.eqb x y && pystr_eqb a' b'
  | _, _ => false
  end.

(** [str.startswith] and the substring test [pat in s]. *)
Fixpoint starts_with (pat s : pystr) : bool :=
  match pat, s with
  | [], _ => true
  | p :: pat', c :: s' => N.eqb p c && starts_with pat' s'
  | _ :: _, [] => false
  end.

Fixpoint is_substring (pat s : pystr) : bool :=
  starts_with pat s ||
  match s with
  | [] => false
  | _ :: s' => is_substring pat s'
  end.

(** Number of positions of [s] at which [pat] occurs. *)
Fixpoint count_sub (pat s : pystr) : nat :=
  ((if starts_with pat s then 1 else 0) +
   match s with
   | [] => 0
   | _ :: s' => count_sub pat s'
   end)%nat.

(** The characters [str.strip()] removes, CPython's [Py_UNICODE_ISSPACE]:
    U+0009..U+000D, U+001C..U+0020, U+0085, U+00A0, U+1680,
    U+2000..U+200A, U+2028, U+2029, U+202F, U+205F, U+3000. *)
Definition is_space (c : char) : bool :=
  ((9 <=? c) && (c <=? 13) || (28 <=? c) && (c <=? 32)
   || (c =? 133) || (c =? 160) || (c =? 5760)
   || (8192 <=? c) && (c <=? 8202)
   || (c =? 8232) || (c =? 8233) || (c =? 8239) || (c =? 8287)
   || (c =? 12288))%N.

Fixpoint lstrip (s : pystr) : pystr :=
  match s with
  | c :: s' => if is_space c then lstrip s' else s
  | [] => []
  end.

Definition rstrip (s : pystr) : pystr := rev (lstrip (rev s)).

Definition strip (s : pystr) : pystr := rstrip (lstrip s).

(** Truth value of a [str]: empty is false. *)
Definition is_empty (s : pystr) : bool :=
  match s with [] => true | _ => false end.

(** [sep.join(parts)] on strings. *)
Fixpoint join (sep : pystr) (parts : list pystr) : pystr :=
  match parts with
  | [] => []
  | [x] => x
  | x :: rest => x ++ sep ++ join sep rest
  end.

(** ** JSON values *)

#[warnings="-register-all"]
Inductive value :=
| VNull
| VBool (b : bool)
| VInt (z : Z)
| VFloat (f : spec_float)
| VStr (s : pystr)
| VList (items : list value)
| VDict (entries : list (pystr * value)).

Fixpoint lookup (k : pystr) (entries : list (pystr * value)) : option value :=
  match entries with
  | [] => None
  | (k', v) :: rest => if pystr_eqb k k' then Some v else lookup k rest
  end.

Definition has_key (k : pystr) (entries : list (pystr * value)) : bool :=
  match lookup k entries with Some _ => true | None => false end.

(** ** Exceptions *)

Inductive exc_class :=
| ImportError
| ModuleNotFoundError
| JSONDecodeError
| TypeError
| KeyError
| AttributeError
| OtherException.

(** An instance of a subclass of [Exception]; [exc_msg] is [str(e)]. *)
Record exception := mk_exception {
  exc_cls : exc_class;
  exc_msg : pystr
}.

(** [isinstance(e, handler)] for the two classes the script names in an
    [except] clause. *)
Definition is_ImportError (e : exception) : bool :=
  match exc_cls e with
  | ImportError | ModuleNotFoundError => true
  | _ => false
  end.

Definition is_JSONDecodeError (e : exception) : bool :=
  match exc_cls e with
  | JSONDecodeError => true
  | _ => false
  end.

(** The result of an expression without side effects: a value, or an
    [Exception] raised by the interpreter. *)
Inductive result (A : Type) :=
| Ok (a : A)
| Raise (e : exception).

Arguments Ok {A} a.
Arguments Raise {A} e.

Definition rbind {A B} (r : result A) (k : A -> result B) : result B :=
  match r with
  | Ok a => k a
  | Raise e => Raise e
  end.

Declare Scope result_scope.
Delimit Scope result_scope with result.
Notation "x <- r ;; k" := (rbind r (fun x => k))
  (at level 61, r at next level, right associativity) : result_scope.

(** The faults of the interpreter the script can run into on a request of
    unexpected shape.  The wording of their messages belongs to the
    interpreter, [fault_class] is fixed by the language. *)
Inductive fault :=
| NotContainer (v : value)                  (* [k in v] *)
| NotIterable (v : value)                   (* [for x in v] *)
| NotSubscriptable (v : value) (k : pystr)  (* [v[k]], [v] not a dict *)
| MissingKey (k : pystr)                    (* [d[k]], [k] absent *)
| NoAttribute (v : value) (attr : pystr)    (* [v.get], [v.items] *)
| JoinItem (index : nat) (v : value).       (* [str.join] on a non-str item *)

Definition fault_class (f : fault) : exc_class :=
  match f with
  | NotContainer _ | NotIterable _ | NotSubscriptable _ _ | JoinItem _ _ =>
      TypeError
  | MissingKey _ => KeyError
  | NoAttribute _ _ => AttributeError
  end.

(** ** The world outside the process

    What an invocation meets: the text on standard input, the modules that
    can be imported, the file system, the model registry and the inference
    runtime.  Each field is the answer the world gives when the script asks;
    a failing call answers with the [Exception] it raises.  Every call is
    taken to come back, and the home directory to resolve when the module
    is loaded. *)

Record completion := mk_completion {
  text : pystr;               (* output["choices"][0]["text"] *)
  completion_tokens : Z       (* output["usage"]["completion_tokens"] *)
}.

Record World := mk_World {
  stdin_read : exception + pystr;                   (* sys.stdin.read() *)
  home : pystr;                                     (* Path.home() *)
  import_module : pystr -> option exception;        (* from m import ... *)
  path_exists : pystr -> bool;                      (* Path.exists() *)
  mkdir : pystr -> option exception;                (* Path.mkdir(parents, exist_ok) *)
  hf_hub_download : pystr -> pystr -> pystr -> exception + pystr;
  cpu_count : option Z;                             (* os.cpu_count() *)
  llama_load : pystr -> Z -> Z -> option exception; (* Llama(model_path, n_ctx, n_threads) *)
  llama_call : pystr -> value -> value -> list pystr -> exception + completion;
  elapsed_ms : Z                                    (* int((end_time - start_time) * 1000) *)
}.

(** ** Effects *)

Inductive stream := Stdout | Stderr.

(** The events of a run.  [Print out payload] is
    [print(json.dumps(payload), file=out)]: with the default arguments
    [json.dumps] escapes line breaks, so one [Print] is one line. *)
Inductive event :=
| Print (out : stream) (payload : value)
| StdinRead
| JsonLoads (input_text : pystr)
| Import (module : pystr)
| PathExists (path : pystr)
| Mkdir (path : pystr)
| HfHubDownload (repo_id filename local_dir : pystr)
| LlamaLoad (model_path : pystr) (n_ctx n_threads : Z)
| LlamaCall (prompt : pystr) (max_tokens temperature : value) (stop : list pystr).

(** How a computation ends: it returns, an [Exception] propagates out of
    it, or [sys.exit] was called ([SystemExit] is not an [Exception]). *)
Inductive ending (A : Type) :=
| Returned (a : A)
| Raised (e : exception)
| Exited (code : Z).

Arguments Returned {A} a.
Arguments Raised {A} e.
Arguments Exited {A} code.

(** A computation: the events it caused, in order, and how it ended. *)
Definition M (A : Type) : Type := (list event * ending A)%type.

Definition ret {A} (a : A) : M A := ([], Returned a).

Definition bind {A B} (m : M A) (k : A -> M B) : M B :=
  match m with
  | (t, Returned a) => let (t', r) := k a in (t ++ t', r)
  | (t, Raised e) => (t, Raised e)
  | (t, Exited code) => (t, Exited code)
  end.

(** An expression evaluated inside a computation. *)
Definition lift {A} (r : result A) : M A :=
  ([],
   match r with
   | Ok a => Returned a
   | Raise e => Raised e
   end).

Declare Scope io_scope.
Delimit Scope io_scope with io.
Notation "x <- m ;; k" := (bind m (fun x => k))
  (at level 61, m at next level, right associativity) : io_scope.
Notation "m ;; k" := (bind m (fun _ => k))
  (at level 61, right associativity) : io_scope.

(** [try: body  except ...: handler].  The clauses of the script all name
    subclasses of [Exception], so [SystemExit] is never offered to them;
    [handler e = None] when no clause matches [e]. *)
Definition try_except {A} (body : M A) (handler : exception -> option (M A)) : M A :=
  match body with
  | (t, Raised e) =>
      match handler e with
      | Some h => let (t', r) := h in (t ++ t', r)
      | None => body
      end
  | _ => body
  end.

Definition print_json (out : stream) (payload : value) : M unit :=
  ([Print out payload], Returned tt).

Definition sys_exit {A} (code : Z) : M A := ([], Exited code).

(** A call into the world: the event, and the world's answer. *)
Definition call {A} (ev : event) (answer : exception + A) : M A :=
  ([ev],
   match answer with
   | inl e => Raised e
   | inr a => Returned a
   end).

Definition command (ev : event) (answer : option exception) : M unit :=
  ([ev],
   match answer with
   | Some e => Raised e
   | None => Returned tt
   end).

(** What the caller of the process observes. *)
Fixpoint stdout_of (t : list event) : list value :=
  match t with
  | [] => []
  | Print Stdout payload :: t' => payload :: stdout_of t'
  | _ :: t' => stdout_of t'
  end.

Fixpoint stderr_of (t : list event) : list value :=
  match t with
  | [] => []
  | Print Stderr payload :: t' => payload :: stderr_of t'
  | _ :: t' => stderr_of t'
  end.

(** Exit status of the process: 0 when [main] returns, the argument of
    [sys.exit], 1 for an exception nobody caught. *)
Definition exit_code {A} (m : M A) : Z :=
  match snd m with
  | Returned _ => 0
  | Exited code => code
  | Raised _ => 1
  end.

(** ** The interpreter

    Three library functions the script relies on are taken as given:
    [json.loads], the formatting of a value that is not a [str] inside an
    f-string, and the message text of an interpreter fault. *)

Section Script.

Variable json_loads : pystr -> exception + value.
Variable py_format : value -> pystr.
Variable fault_text : fault -> pystr.

Definition fault_exn {A} (f : fault) : result A :=
  Raise (mk_exception (fault_class f) (fault_text f)).

(** [f"{v}"] *)
Definition fmt (v : value) : pystr :=
  match v with
  | VStr s => s
  | _ => py_format v
  end.

(** [key in container] *)
Definition py_contains (key : pystr) (container : value) : result bool :=
  match container with
  | VDict entries => Ok (has_key key entries)
  | VList items =>
      Ok (existsb (fun x => match x with
                            | VStr s => pystr_eqb key s
                            | _ => false
                            end) items)
  | VStr s => Ok (is_substring key s)
  | _ => fault_exn (NotContainer container)
  end.

(** [obj.get(key, default)] *)
Definition py_get (obj : value) (key : pystr) (default : value) : result value :=
  match obj with
  | VDict entries =>
      match lookup key entries with
      | Some v => Ok v
      | None => Ok default
      end
  | _ => fault_exn (NoAttribute obj (lit "get"))
  end.

(** [obj[key]] with a string key *)
Definition py_getitem (obj : value) (key : pystr) : result value :=
  match obj with
  | VDict entries =>
      match lookup key entries with
      | Some v => Ok v
      | None => fault_exn (MissingKey key)
      end
  | _ => fault_exn (NotSubscriptable obj key)
  end.

(** [obj.items()] *)
Definition py_items (obj : value) : result (list (pystr * value)) :=
  match obj with
  | VDict entries => Ok entries
  | _ => fault_exn (NoAttribute obj (lit "items"))
  end.

(** The elements a [for] loop over [obj] visits. *)
Definition py_iter (obj : value) : result (list value) :=
  match obj with
  | VList items => Ok items
  | VDict entries => Ok (List.map (fun kv => VStr (fst kv)) entries)
  | VStr s => Ok (List.map (fun c => VStr [c]) s)
  | _ => fault_exn (NotIterable obj)
  end.

(** [str.join] accepts only [str] items. *)
Fixpoint join_items (index : nat) (parts : list value) : result (list pystr) :=
  match parts with
  | [] => Ok []
  | VStr s :: rest =>
      (strs <- join_items (S index) rest ;; Ok (s :: strs))%result
  | v :: _ => fault_exn (JoinItem index v)
  end.

Definition py_join (sep : pystr) (parts : list value) : result pystr :=
  (strs <- join_items 0 parts ;; Ok (join sep strs))%result.

(** ** build_prompt *)

Definition FILE_SEP : pystr := lit "<|file_sep|>".
Definition NL : pystr := [10%N].

(** The first loop: [for path, content in context_files.items()]. *)
Fixpoint context_parts (items : list (pystr * value)) : list value :=
  match items with
  | [] => []
  | (path, content) :: rest =>
      VStr (FILE_SEP ++ path) :: content :: context_parts rest
  end.

(** One round of the second loop. *)
Definition diff_parts (diff : value) : result (list value) :=
  (fp <- py_getitem diff (lit "file_path") ;;
   original <- py_getitem diff (lit "original") ;;
   updated <- py_getitem diff (lit "updated") ;;
   Ok [VStr (FILE_SEP ++ fmt fp ++ lit ".diff");
       VStr (lit "original:"); original;
       VStr (lit "updated:"); updated])%result.

Fixpoint diffs_parts (diffs : list value) : result (list value) :=
  match diffs with
  | [] => Ok []
  | diff :: rest =>
      (parts <- diff_parts diff ;;
       more <- diffs_parts rest ;;
       Ok (parts ++ more))%result
  end.

(** The last five [append]s. *)
Definition state_parts (file_path original_content current_content : value)
  : list value :=
  [VStr (FILE_SEP ++ lit "original/" ++ fmt file_path);
   original_content;
   VStr (FILE_SEP ++ lit "current/" ++ fmt file_path);
   current_content;
   VStr (FILE_SEP ++ lit "updated/" ++ fmt file_path)].

Definition prompt_parts
    (context_files recent_diffs file_path original_content current_content : value)
  : result (list value) :=
  (items <- py_items context_files ;;
   diffs <- py_iter recent_diffs ;;
   dparts <- diffs_parts diffs ;;
   Ok (context_parts items ++ dparts ++
       state_parts file_path original_content current_content))%result.

Definition build_prompt
    (context_files recent_diffs file_path original_content current_content : value)
  : result pystr :=
  (parts <- prompt_parts context_files recent_diffs file_path
                         original_content current_content ;;
   py_join NL parts)%result.

(** ** get_model_path *)

Definition MODEL_REPO : pystr := lit "sweepai/sweep-next-edit-1.5B".
Definition MODEL_FILENAME : pystr := lit "sweep-next-edit-1.5b.q8_0.v2.gguf".

(** [a / b] on paths. *)
Definition path_join (a b : pystr) : pystr := a ++ lit "/" ++ b.

Definition MODEL_DIR (W : World) : pystr :=
  path_join (path_join (path_join (home W) (lit ".stackmemory")) (lit "models"))
            (lit "sweep").

Definition downloading_message : value :=
  VDict [(lit "status", VStr (lit "downloading"));
         (lit "message", VStr (lit "Downloading Sweep 1.5B model..."))].

Definition downloaded_message (downloaded_path : pystr) : value :=
  VDict [(lit "status", VStr (lit "downloaded"));
         (lit "path", VStr downloaded_path)].

Definition hub_missing_error : value :=
  VDict [(lit "error", VStr (lit "huggingface_hub not installed"));
         (lit "message",
          VStr (lit "Run: pip install huggingface_hub llama-cpp-python"))].

Definition download_failed_error (e : exception) : value :=
  VDict [(lit "error", VStr (lit "download_failed"));
         (lit "message", VStr (exc_msg e))].

(** The body of the [try] of [get_model_path]. *)
Definition download_model (W : World) : M pystr :=
  (command (Import (lit "huggingface_hub"))
           (import_module W (lit "huggingface_hub")) ;;
   command (Mkdir (MODEL_DIR W)) (mkdir W (MODEL_DIR W)) ;;
   downloaded_path <-
     call (HfHubDownload MODEL_REPO MODEL_FILENAME (MODEL_DIR W))
          (hf_hub_download W MODEL_REPO MODEL_FILENAME (MODEL_DIR W)) ;;
   print_json Stderr (downloaded_message downloaded_path) ;;
   ret downloaded_path)%io.

Definition get_model_path (W : World) : M pystr :=
  (let model_path := path_join (MODEL_DIR W) MODEL_FILENAME in
   present <- ([PathExists model_path], Returned (path_exists W model_path)) ;;
   if present then ret model_path
   else
     print_json Stderr downloading_message ;;
     try_except
       (download_model W)
       (fun e =>
          if is_ImportError e
          then Some (print_json Stdout hub_missing_error ;; sys_exit 1)
          else Some (print_json Stdout (download_failed_error e) ;; sys_exit 1)))%io.

(** ** predict *)

Definition llama_missing_error : value :=
  VDict [(lit "error", VStr (lit "llama_cpp not installed"));
         (lit "message", VStr (lit "Run: pip install llama-cpp-python"))].

Definition prediction_failed_error (e : exception) : value :=
  VDict [(lit "error", VStr (lit "prediction_failed"));
         (lit "message", VStr (exc_msg e))].

Definition prediction_result (predicted_content : pystr) (file_path : value)
    (latency_ms tokens_generated : Z) : value :=
  VDict [(lit "success", VBool true);
         (lit "predicted_content", VStr predicted_content);
         (lit "file_path", file_path);
         (lit "latency_ms", VInt latency_ms);
         (lit "tokens_generated", VInt tokens_generated)].

(** The arguments of the [build_prompt] call, evaluated left to right, and
    the call. *)
Definition predict_prompt (input_data : value) : result pystr :=
  (context_files <- py_get input_data (lit "context_files") (VDict []) ;;
   recent_diffs <- py_get input_data (lit "recent_diffs") (VList []) ;;
   file_path <- py_getitem input_data (lit "file_path") ;;
   fallback <- py_getitem input_data (lit "current_content") ;;
   original_content <- py_get input_data (lit "original_content") fallback ;;
   current_content <- py_getitem input_data (lit "current_content") ;;
   build_prompt context_files recent_diffs file_path
                original_content current_content)%result.

(** [os.cpu_count() or 4] *)
Definition n_threads (W : World) : Z :=
  match cpu_count W with
  | Some n => if n =? 0 then 4 else n
  | None => 4
  end.

Definition STOP : list pystr := [lit "<|file_sep|>"; lit "</s>"].

(** The body of the second [try] of [predict]. *)
Definition generate (W : World) (input_data : value) (model_path prompt : pystr)
  : M value :=
  (command (LlamaLoad model_path 8192 (n_threads W))
           (llama_load W model_path 8192 (n_threads W)) ;;
   max_tokens <- lift (py_get input_data (lit "max_tokens") (VInt 512)) ;;
   temperature <-
     lift (py_get input_data (lit "temperature") (VFloat (S754_zero false))) ;;
   output <- call (LlamaCall prompt max_tokens temperature STOP)
                  (llama_call W prompt max_tokens temperature STOP) ;;
   file_path <- lift (py_getitem input_data (lit "file_path")) ;;
   ret (prediction_result (text output) file_path
                          (elapsed_ms W) (completion_tokens output)))%io.

Definition predict (W : World) (input_data : value) : M value :=
  (early <-
     try_except
       (command (Import (lit "llama_cpp")) (import_module W (lit "llama_cpp")) ;;
        ret None)
       (fun e => if is_ImportError e
                 then Some (ret (Some llama_missing_error))
                 else None) ;;
   match early with
   | Some error => ret error
   | None =>
       model_path <- get_model_path W ;;
       prompt <- lift (predict_prompt input_data) ;;
       try_except
         (generate W input_data model_path prompt)
         (fun e => Some (ret (prediction_failed_error e)))
   end)%io.

(** ** main *)

Definition no_input_error : value :=
  VDict [(lit "error", VStr (lit "no_input"));
         (lit "message", VStr (lit "No input provided"))].

Definition missing_field_error (field : pystr) : value :=
  VDict [(lit "error", VStr (lit "missing_field"));
         (lit "message", VStr (field ++ lit " is required"))].

Definition invalid_json_error (e : exception) : value :=
  VDict [(lit "error", VStr (lit "invalid_json"));
         (lit "message", VStr (exc_msg e))].

Definition unexpected_error (e : exception) : value :=
  VDict [(lit "error", VStr (lit "unexpected"));
         (lit "message", VStr (exc_msg e))].

(** [if key not in input_data: print(...); sys.exit(1)] *)
Definition require_field (key : pystr) (input_data : value) : M unit :=
  (present <- lift (py_contains key input_data) ;;
   if present then ret tt
   else print_json Stdout (missing_field_error key) ;; sys_exit 1)%io.

(** The two [except] clauses of [main]. *)
Definition report_failure (e : exception) : option (M unit) :=
  if is_JSONDecodeError e
  then Some (print_json Stdout (invalid_json_error e) ;; sys_exit 1)%io
  else Some (print_json Stdout (unexpected_error e) ;; sys_exit 1)%io.

Definition main (W : World) : M unit :=
  try_except
    (input_text <- call StdinRead (stdin_read W) ;;
     (if is_empty (strip input_text)
      then print_json Stdout no_input_error ;; sys_exit 1
      else ret tt) ;;
     input_data <- call (JsonLoads input_text) (json_loads input_text) ;;
     require_field (lit "file_path") input_data ;;
     require_field (lit "current_content") input_data ;;
     result <- predict W input_data ;;
     print_json Stdout result)%io
    report_failure.

(** ** The request as the specification types it *)

Record Diff := mk_Diff {
  diff_file_path : pystr;
  diff_original : pystr;
  diff_updated : pystr
}.

Record PredictionRequest := mk_PredictionRequest {
  file_path : pystr;
  current_content : pystr;
  original_content : option pystr;
  context_files : list (pystr * pystr);     (* in insertion order *)
  recent_diffs : list Diff;                 (* in chronological order *)
  max_tokens : option Z;
  temperature : option spec_float
}.

(** The JSON object of a mapping path -> content. *)
Definition context_value (files : list (pystr * pystr)) : value :=
  VDict (List.map (fun entry => (fst entry, VStr (snd entry))) files).

(** [v] is a JSON object carrying the three fields of [d] (in any order,
    possibly among others). *)
Definition is_diff (v : value) (d : Diff) : Prop :=
  exists entries,
    v = VDict entries /\
    lookup (lit "file_path") entries = Some (VStr (diff_file_path d)) /\
    lookup (lit "original") entries = Some (VStr (diff_original d)) /\
    lookup (lit "updated") entries = Some (VStr (diff_updated d)).

Definition diff_value (d : Diff) : value :=
  VDict [(lit "file_path", VStr (diff_file_path d));
         (lit "original", VStr (diff_original d));
         (lit "updated", VStr (diff_updated d))].

(** The JSON object [entries] is the request [r]: required fields present,
    optional fields present exactly when [r] has them, except that an
    absent collection stands for the empty one. *)
Definition represents (entries : list (pystr * value)) (r : PredictionRequest)
  : Prop :=
  lookup (lit "file_path") entries = Some (VStr (file_path r)) /\
  lookup (lit "current_content") entries = Some (VStr (current_content r)) /\
  lookup (lit "original_content") entries =
    option_map VStr (original_content r) /\
  (lookup (lit "context_files") entries = Some (context_value (context_files r))
   \/ lookup (lit "context_files") entries = None /\ context_files r = []) /\
  ((exists items, lookup (lit "recent_diffs") entries = Some (VList items) /\
                  Forall2 is_diff items (recent_diffs r))
   \/ lookup (lit "recent_diffs") entries = None /\ recent_diffs r = []) /\
  lookup (lit "max_tokens") entries = option_map VInt (max_tokens r) /\
  lookup (lit "temperature") entries = option_map VFloat (temperature r).

(** *** The serialisation in the words of the specification *)

(** A section: the delimiter token and the section's name on one line, the
    body on the following lines. *)
Definition section_text (name body : pystr) : pystr :=
  FILE_SEP ++ name ++ NL ++ body ++ NL.

Definition context_section (entry : pystr * pystr) : pystr :=
  section_text (fst entry) (snd entry).

Definition diff_section (d : Diff) : pystr :=
  FILE_SEP ++ diff_file_path d ++ lit ".diff" ++ NL ++
  lit "original:" ++ NL ++ diff_original d ++ NL ++
  lit "updated:" ++ NL ++ diff_updated d ++ NL.

Definition serialized_prompt (files : list (pystr * pystr)) (diffs : list Diff)
    (path original current : pystr) : pystr :=
  List.concat (List.map context_section files) ++
  List.concat (List.map diff_section diffs) ++
  section_text (lit "original/" ++ path) original ++
  section_text (lit "current/" ++ path) current ++
  FILE_SEP ++ lit "updated/" ++ path.

Definition effective_original (r : PredictionRequest) : pystr :=
  match original_content r with
  | Some original => original
  | None => current_content r
  end.

(** The lines the two loops and the closing statements hand to [join] when
    every field is a string. *)
Definition context_lines (files : list (pystr * pystr)) : list pystr :=
  flat_map (fun entry => [FILE_SEP ++ fst entry; snd entry]) files.

Definition diff_lines (d : Diff) : list pystr :=
  [FILE_SEP ++ diff_file_path d ++ lit ".diff";
   lit "original:"; diff_original d;
   lit "updated:"; diff_updated d].

Definition state_lines (path original current : pystr) : list pystr :=
  [FILE_SEP ++ lit "original/" ++ path; original;
   FILE_SEP ++ lit "current/" ++ path; current;
   FILE_SEP ++ lit "updated/" ++ path].

(** ** Observations on the output *)

Definition is_prediction_result (v : value) : bool :=
  match v with
  | VDict entries =>
      match lookup (lit "success") entries with
      | Some (VBool true) =>
          has_key (lit "predicted_content") entries &&
          has_key (lit "file_path") entries &&
          has_key (lit "latency_ms") entries &&
          has_key (lit "tokens_generated") entries &&
          negb (has_key (lit "error") entries)
      | _ => false
      end
  | _ => false
  end.

Definition is_error_envelope (v : value) : bool :=
  match v with
  | VDict entries =>
      has_key (lit "error") entries &&
      has_key (lit "message") entries &&
      negb (has_key (lit "success") entries)
  | _ => false
  end.

(** A download-progress message. *)
Definition is_progress (v : value) : bool :=
  match v with
  | VDict entries => has_key (lit "status") entries
  | _ => false
  end.

Definition is_print (ev : event) : bool :=
  match ev with
  | Print _ _ => true
  | _ => false
  end.

(** Events that reach the model registry or write to the cache directory. *)
Definition touches_registry (ev : event) : bool :=
  match ev with
  | Mkdir _ | HfHubDownload _ _ _ => true
  | _ => false
  end.


(** The [error] field of an envelope. *)
Definition error_kind (v : value) : option value :=
  match v with
  | VDict entries => lookup (lit "error") entries
  | _ => None
  end.

(** The envelopes [get_model_path] writes before it exits. *)
Definition registry_error (v : value) : Prop :=
  v = hub_missing_error \/ exists e, v = download_failed_error e.

(** What [predict] returns. *)
Definition prediction_outcome (v : value) : Prop :=
  v = llama_missing_error \/
  (exists e, v = prediction_failed_error e) \/
  (exists predicted path latency tokens,
     v = prediction_result predicted path latency tokens).

(** The envelopes [main] itself writes before it exits. *)
Definition protocol_error (v : value) : Prop :=
  v = no_input_error \/
  (exists field, v = missing_field_error field) \/
  (exists e, v = invalid_json_error e) \/
  (exists e, v = unexpected_error e).

(** How a computation may end with respect to standard output: [on_return]
    constrains what was written when it returns; an [Exception] leaves
    standard output untouched; [sys.exit] has status 1 and follows exactly
    one object, which satisfies [on_exit]. *)
Definition ends_with {A} (on_exit : value -> Prop)
    (on_return : list value -> A -> Prop) (m : M A) : Prop :=
  match m with
  | (t, Returned a) => on_return (stdout_of t) a
  | (t, Raised _) => stdout_of t = []
  | (t, Exited code) => code = 1 /\ exists v, stdout_of t = [v] /\ on_exit v
  end.

Definition silent {A} (P : A -> Prop) : list value -> A -> Prop :=
  fun out a => out = [] /\ P a.


(** [m] run after the events [pre]. *)
Definition after {A} (pre : list event) (m : M A) : M A :=
  (pre ++ fst m, snd m).

(** ** Shapes of arguments and kinds of events *)




Definition token_free (s : pystr) : Prop := is_substring FILE_SEP s = false.

Definition diff_token_free (d : Diff) : Prop :=
  token_free (diff_file_path d) /\
  token_free (diff_original d) /\
  token_free (diff_updated d).

(** Events of the prediction stage: everything but the read, the parse
    and the prints. *)
Definition prediction_stage_event (ev : event) : bool :=
  match ev with
  | Import _ | PathExists _ | Mkdir _ | HfHubDownload _ _ _
  | LlamaLoad _ _ _ | LlamaCall _ _ _ _ => true
  | _ => false
  end.

(** [d.get(key, default)] on the entries of an object. *)
Definition get_or (default : value) (key : pystr)
    (entries : list (pystr * value)) : value :=
  match lookup key entries with
  | Some v => v
  | None => default
  end.


Definition is_object (v : value) : bool :=
  match v with
  | VDict _ => true
  | _ => false
  end.


(** ** block-ask-user-question.py

    The second script of the repository: a hook that reads a tool call
    from standard input and denies [AskUserQuestion] when the variable
    [ZEROSHOT_BLOCK_ASK_USER] is set to [1].  Its [main] is [hook_main]
    here.  An exception that leaves it ends the process with status 1; the
    traceback the interpreter then prints on standard error is not among
    the events. *)

Record HookWorld := mk_HookWorld {
  environ : pystr -> option pystr;          (* os.environ.get(name) *)
  hook_stdin : exception + pystr            (* sys.stdin.read() *)
}.

Definition deny_reason : pystr :=
  lit "AskUserQuestion is BLOCKED in zeroshot cluster mode. " ++
  lit "You are running non-interactively with no user to respond. " ++
  lit "Make autonomous decisions instead. " ++
  lit "If choosing between 'fix code' vs 'relax rules', ALWAYS fix the code.".

Definition deny_output : value :=
  VDict [(lit "hookSpecificOutput",
          VDict [(lit "hookEventName", VStr (lit "PreToolUse"));
                 (lit "permissionDecision", VStr (lit "deny"));
                 (lit "permissionDecisionReason", VStr deny_reason)])].

(** [v == s] for a string [s]. *)
Definition py_eq_str (v : value) (s : pystr) : bool :=
  match v with
  | VStr x => pystr_eqb x s
  | _ => false
  end.

(** [os.environ.get("ZEROSHOT_BLOCK_ASK_USER") != "1"] *)
Definition hook_inactive (H : HookWorld) : bool :=
  match environ H (lit "ZEROSHOT_BLOCK_ASK_USER") with
  | Some setting => negb (pystr_eqb setting (lit "1"))
  | None => true
  end.

(** [json.load(sys.stdin)]: the text is read, then parsed. *)
Definition json_load_stdin (H : HookWorld) : M value :=
  (input_text <- call StdinRead (hook_stdin H) ;;
   call (JsonLoads input_text) (json_loads input_text))%io.

Definition hook_main (H : HookWorld) : M unit :=
  (if hook_inactive H then sys_exit 0
   else
     input_data <-
       try_except (json_load_stdin H)
                  (fun e => if is_JSONDecodeError e
                            then Some (sys_exit 0)
                            else None) ;;
     tool_name <- lift (py_get input_data (lit "tool_name") (VStr [])) ;;
     if py_eq_str tool_name (lit "AskUserQuestion")
     then print_json Stdout deny_output ;; sys_exit 0
     else sys_exit 0)%io.

(** ** Concrete interpreters and worlds *)

Definition quoted (s : pystr) : pystr := [34%N] ++ s ++ [34%N].

(** The text [{"file_path": <a>, "current_content": <b>}]. *)
Definition request_text (a b : pystr) : pystr :=
  lit "{" ++ quoted (lit "file_path") ++ lit ": " ++ a ++ lit ", " ++
  quoted (lit "current_content") ++ lit ": " ++ b ++ lit "}".

Definition plain_request_text : pystr :=
  request_text (quoted (lit "a.py")) (quoted (lit "def f():\n    pass\n")).

Definition plain_request : list (pystr * value) :=
  [(lit "file_path", VStr (lit "a.py"));
   (lit "current_content",
    VStr (lit "def f():" ++ NL ++ lit "    pass" ++ NL))].

Definition null_request_text : pystr := request_text (lit "null") (lit "null").

Definition null_request : list (pystr * value) :=
  [(lit "file_path", VNull); (lit "current_content", VNull)].

Definition no_path_text : pystr :=
  lit "{" ++ quoted (lit "current_content") ++ lit ": " ++ quoted (lit "x") ++ lit "}".

Definition no_content_text : pystr :=
  lit "{" ++ quoted (lit "file_path") ++ lit ": " ++ quoted (lit "a.py") ++ lit "}".

Definition documents : list (pystr * value) :=
  [(plain_request_text, VDict plain_request);
   (null_request_text, VDict null_request);
   (no_path_text, VDict [(lit "current_content", VStr (lit "x"))]);
   (no_content_text, VDict [(lit "file_path", VStr (lit "a.py"))])].

(** [json.loads] on the documents above; any other text is answered the
    way CPython answers text that does not begin a JSON value. *)
Definition sample_loads (input_text : pystr) : exception + value :=
  match lookup input_text documents with
  | Some v => inr v
  | None =>
      inl (mk_exception JSONDecodeError
             (lit "Expecting value: line 1 column 1 (char 0)"))
  end.

(** Stand-ins for the interpreter's own texts; the concrete runs below hold
    strings only and never consult them. *)
Definition sample_format (v : value) : pystr := [].
Definition sample_fault_text (f : fault) : pystr := [].

Definition sample_model_path : pystr :=
  lit "/home/dev/.stackmemory/models/sweep/sweep-next-edit-1.5b.q8_0.v2.gguf".

(** Everything installed, the model cached, a runtime that answers
    ["    return 1\n"]. *)
Definition warm_world (input_text : pystr) : World :=
  {| stdin_read := inr input_text;
     home := lit "/home/dev";
     import_module := fun _ => None;
     path_exists := fun _ => true;
     mkdir := fun _ => None;
     hf_hub_download := fun _ _ _ => inr sample_model_path;
     cpu_count := Some 8;
     llama_load := fun _ _ _ => None;
     llama_call := fun _ _ _ _ =>
       inr (mk_completion (lit "    return 1" ++ NL) 4);
     elapsed_ms := 12 |}.

Definition with_cold_cache (W : World) : World :=
  {| stdin_read := stdin_read W; home := home W;
     import_module := import_module W;
     path_exists := fun _ => false;
     mkdir := mkdir W; hf_hub_download := hf_hub_download W;
     cpu_count := cpu_count W; llama_load := llama_load W;
     llama_call := llama_call W; elapsed_ms := elapsed_ms W |}.

Definition without_module (name : pystr) (W : World) : World :=
  {| stdin_read := stdin_read W; home := home W;
     import_module := fun m =>
       if pystr_eqb m name
       then Some (mk_exception ModuleNotFoundError
                    (lit "No module named '" ++ m ++ lit "'"))
       else import_module W m;
     path_exists := path_exists W;
     mkdir := mkdir W; hf_hub_download := hf_hub_download W;
     cpu_count := cpu_count W; llama_load := llama_load W;
     llama_call := llama_call W; elapsed_ms := elapsed_ms W |}.





Definition sample_diff : Diff :=
  mk_Diff (lit "b.py") (lit "y = 1") (lit "y = 2").

(** A request object with every field of the prompt, and a second one for
    the same request: other key order, [max_tokens] added, the diff object
    carrying one more key. *)
Definition full_request : list (pystr * value) :=
  [(lit "file_path", VStr (lit "a.py"));
   (lit "current_content", VStr (lit "x = 2"));
   (lit "original_content", VStr (lit "x = 1"));
   (lit "context_files", context_value [(lit "lib.py", lit "import os")]);
   (lit "recent_diffs", VList [diff_value sample_diff])].

Definition full_request_again : list (pystr * value) :=
  [(lit "max_tokens", VInt 64);
   (lit "recent_diffs",
    VList [VDict [(lit "updated", VStr (lit "y = 2"));
                  (lit "note", VNull);
                  (lit "original", VStr (lit "y = 1"));
                  (lit "file_path", VStr (lit "b.py"))]]);
   (lit "context_files", context_value [(lit "lib.py", lit "import os")]);
   (lit "original_content", VStr (lit "x = 1"));
   (lit "current_content", VStr (lit "x = 2"));
   (lit "file_path", VStr (lit "a.py"))].

Definition full_request_typed (limit : option Z) : PredictionRequest :=
  {| file_path := lit "a.py";
     current_content := lit "x = 2";
     original_content := Some (lit "x = 1");
     context_files := [(lit "lib.py", lit "import os")];
     recent_diffs := [sample_diff];
     max_tokens := limit;
     temperature := None |}.

Definition plain_request_typed : PredictionRequest :=
  {| file_path := lit "a.py";
     current_content := lit "def f():" ++ NL ++ lit "    pass" ++ NL;
     original_content := None;
     context_files := [];
     recent_diffs := [];
     max_tokens := None;
     temperature := None |}.

(** Further documents: arrays, a number, a string, a tool call. *)
Definition array_text : pystr := lit "[1, 2]".

Definition key_array_text : pystr :=
  lit "[" ++ quoted (lit "file_path") ++ lit ", " ++
  quoted (lit "current_content") ++ lit "]".

Definition number_text : pystr := lit "5".

Definition string_text : pystr := quoted (lit "hello").

Definition tool_call_text : pystr :=
  lit "{" ++ quoted (lit "tool_name") ++ lit ": " ++
  quoted (lit "AskUserQuestion") ++ lit "}".

Definition more_documents : list (pystr * value) :=
  [(array_text, VList [VInt 1; VInt 2]);
   (key_array_text,
    VList [VStr (lit "file_path"); VStr (lit "current_content")]);
   (number_text, VInt 5);
   (string_text, VStr (lit "hello"));
   (tool_call_text,
    VDict [(lit "tool_name", VStr (lit "AskUserQuestion"))])].

Definition more_loads (input_text : pystr) : exception + value :=
  match lookup input_text more_documents with
  | Some v => inr v
  | None => sample_loads input_text
  end.

(** The hook switched on and off. *)
Definition hook_on (input_text : pystr) : HookWorld :=
  {| environ := fun name =>
       if pystr_eqb name (lit "ZEROSHOT_BLOCK_ASK_USER")
       then Some (lit "1") else None;
     hook_stdin := inr input_text |}.

Definition hook_off (input_text : pystr) : HookWorld :=
  {| environ := fun _ => None;
     hook_stdin := inr input_text |}.

(** * Properties *)

(** ** Text *)



Lemma lstrip_blank (s : pystr) :
  forallb is_space s = true -> lstrip s = [].
Proof.
  induction s as [|c s IH]; simpl; [reflexivity|].
  destruct (is_space c); simpl; [exact IH|discriminate].
Qed.

Lemma lstrip_keeps_text (s : pystr) (c : char) :
  is_space c = false -> lstrip (s ++ [c]) <> [].
Proof.
  intros Hc. induction s as [|x s IH]; simpl.
  - rewrite Hc. discriminate.
  - destruct (is_space x); [exact IH|discriminate].
Qed.

Lemma lstrip_not_blank (s : pystr) :
  forallb is_space s = false ->
  exists c rest, lstrip s = c :: rest /\ is_space c = false.
Proof.
  induction s as [|x s IH]; simpl; [discriminate|].
  destruct (is_space x) eqn:Hx; simpl.
  - exact IH.
  - intros _. now exists x, s.
Qed.

(** [not input_text.strip()] holds exactly for text made of whitespace. *)
Lemma strip_empty_iff_blank (s : pystr) :
  is_empty (strip s) = forallb is_space s.
Proof.
  destruct (forallb is_space s) eqn:Hs.
  - unfold strip, rstrip. now rewrite (lstrip_blank s Hs).
  - destruct (lstrip_not_blank s Hs) as (c & rest & Hl & Hc).
    unfold strip, rstrip. rewrite Hl. simpl rev.
    pose proof (lstrip_keeps_text (rev rest) c Hc) as Hne.
    destruct (lstrip (rev rest ++ [c])) as [|y l] eqn:E; [congruence|].
    simpl. destruct (rev l ++ [y]) eqn:E2; [|reflexivity].
    now destruct (rev l).
Qed.

Lemma join_cons (sep x : pystr) (rest : list pystr) :
  rest <> [] -> join sep (x :: rest) = x ++ sep ++ join sep rest.
Proof. destruct rest; [congruence|reflexivity]. Qed.

Lemma starts_with_nil (pat : pystr) : starts_with pat [] = is_empty pat.
Proof. now destruct pat. Qed.

(** An occurrence of a pattern without line breaks does not reach across a
    line break. *)
Lemma starts_with_before_newline (pat a b : pystr) :
  ~ In 10%N pat -> pat <> [] ->
  starts_with pat (a ++ NL ++ b) = starts_with pat a.
Proof.
  revert a; induction pat as [|p pat IH]; intros a Hnl Hne; [congruence|].
  destruct a as [|c a]; simpl.
  - destruct (N.eqb_spec p 10) as [->|_]; [|reflexivity].
    exfalso. apply Hnl. now left.
  - destruct (N.eqb p c); simpl; [|reflexivity].
    destruct pat as [|q pat]; [reflexivity|].
    apply IH; [|discriminate].
    intros Hin. apply Hnl. now right.
Qed.

Lemma count_sub_across_newline (pat a b : pystr) :
  ~ In 10%N pat -> pat <> [] ->
  count_sub pat (a ++ NL ++ b) = (count_sub pat a + count_sub pat b)%nat.
Proof.
  intros Hnl Hne. induction a as [|c a IH].
  - change ([] ++ NL ++ b) with (10%N :: b).
    destruct pat as [|p pat]; [congruence|].
    simpl. destruct (N.eqb_spec p 10) as [->|_]; [|reflexivity].
    exfalso. apply Hnl. now left.
  - change ((c :: a) ++ NL ++ b) with (c :: (a ++ NL ++ b)).
    change (count_sub pat (c :: a ++ NL ++ b))
      with ((if starts_with pat (c :: a ++ NL ++ b) then 1 else 0)
            + count_sub pat (a ++ NL ++ b))%nat.
    change (count_sub pat (c :: a))
      with ((if starts_with pat (c :: a) then 1 else 0)
            + count_sub pat a)%nat.
    rewrite IH.
    change (c :: a ++ NL ++ b) with ((c :: a) ++ NL ++ b).
    rewrite (starts_with_before_newline pat (c :: a) b Hnl Hne).
    lia.
Qed.

Lemma count_sub_absent (pat s : pystr) :
  is_substring pat s = false -> count_sub pat s = 0%nat.
Proof.
  induction s as [|c s IH]; simpl; intros H;
    apply orb_false_iff in H as [H1 H2]; rewrite H1.
  - reflexivity.
  - now rewrite (IH H2).
Qed.

(** ** build_prompt on well-typed arguments *)

Lemma join_items_strs (index : nat) (lines : list pystr) :
  join_items index (List.map VStr lines) = Ok lines.
Proof.
  revert index; induction lines as [|l lines IH]; intros index; simpl.
  - reflexivity.
  - now rewrite IH.
Qed.

Lemma py_join_strs (sep : pystr) (lines : list pystr) :
  py_join sep (List.map VStr lines) = Ok (join sep lines).
Proof. unfold py_join. now rewrite join_items_strs. Qed.

Lemma context_parts_typed (files : list (pystr * pystr)) :
  context_parts (List.map (fun entry => (fst entry, VStr (snd entry))) files)
  = List.map VStr (context_lines files).
Proof.
  induction files as [|[path content] files IH]; simpl; [reflexivity|].
  now rewrite IH.
Qed.

Lemma diff_parts_typed (v : value) (d : Diff) :
  is_diff v d -> diff_parts v = Ok (List.map VStr (diff_lines d)).
Proof.
  intros (entries & -> & Hp & Ho & Hu).
  unfold diff_parts, py_getitem. now rewrite Hp, Ho, Hu.
Qed.

Lemma diffs_parts_typed (items : list value) (diffs : list Diff) :
  Forall2 is_diff items diffs ->
  diffs_parts items = Ok (List.map VStr (flat_map diff_lines diffs)).
Proof.
  induction 1 as [|v d items diffs Hd _ IH]; [reflexivity|].
  cbn [diffs_parts flat_map]. rewrite (diff_parts_typed v d Hd), IH.
  cbn [rbind]. now rewrite List.map_app.
Qed.

Lemma prompt_parts_typed (files : list (pystr * pystr)) (items : list value)
    (diffs : list Diff) (path original current : pystr) :
  Forall2 is_diff items diffs ->
  prompt_parts (context_value files) (VList items)
               (VStr path) (VStr original) (VStr current)
  = Ok (List.map VStr (context_lines files ++ flat_map diff_lines diffs ++
                       state_lines path original current)).
Proof.
  intros Hd. unfold prompt_parts, context_value. cbn [py_items py_iter rbind].
  rewrite (diffs_parts_typed items diffs Hd). cbn [rbind].
  rewrite context_parts_typed.
  now rewrite !List.map_app.
Qed.

Lemma join_context_lines (files : list (pystr * pystr)) (rest : list pystr) :
  rest <> [] ->
  join NL (context_lines files ++ rest)
  = List.concat (List.map context_section files) ++ join NL rest.
Proof.
  intros Hrest. induction files as [|[path content] files IH]; [reflexivity|].
  cbn [context_lines flat_map List.map List.concat app fst snd].
  fold (context_lines files).
  assert (Hne : context_lines files ++ rest <> []).
  { destruct (context_lines files); [exact Hrest|discriminate]. }
  rewrite join_cons by discriminate.
  rewrite join_cons by exact Hne.
  rewrite IH. unfold context_section, section_text. cbn [fst snd].
  now rewrite <- !app_assoc.
Qed.

Lemma join_diff_lines (diffs : list Diff) (rest : list pystr) :
  rest <> [] ->
  join NL (flat_map diff_lines diffs ++ rest)
  = List.concat (List.map diff_section diffs) ++ join NL rest.
Proof.
  intros Hrest. induction diffs as [|d diffs IH]; [reflexivity|].
  cbn [flat_map diff_lines List.map List.concat app].
  assert (Hne : flat_map diff_lines diffs ++ rest <> []).
  { destruct (flat_map diff_lines diffs); [exact Hrest|discriminate]. }
  do 4 (rewrite join_cons by discriminate).
  rewrite join_cons by exact Hne.
  rewrite IH. unfold diff_section.
  now rewrite <- !app_assoc.
Qed.

Lemma join_state_lines (path original current : pystr) :
  join NL (state_lines path original current)
  = section_text (lit "original/" ++ path) original ++
    section_text (lit "current/" ++ path) current ++
    FILE_SEP ++ lit "updated/" ++ path.
Proof.
  unfold state_lines, section_text. cbn [join].
  now rewrite <- !app_assoc.
Qed.

Lemma build_prompt_typed
    (files : list (pystr * pystr)) (items : list value) (diffs : list Diff)
    (path original current : pystr) :
  Forall2 is_diff items diffs ->
  build_prompt (context_value files) (VList items)
               (VStr path) (VStr original) (VStr current)
  = Ok (serialized_prompt files diffs path original current).
Proof.
  intros Hd. unfold build_prompt.
  rewrite (prompt_parts_typed files items diffs path original current Hd).
  cbn [rbind]. rewrite py_join_strs. f_equal.
  rewrite join_context_lines.
  - rewrite join_diff_lines by discriminate.
    now rewrite join_state_lines.
  - destruct (flat_map diff_lines diffs); discriminate.
Qed.

(** C2.  On a request whose fields are strings, [build_prompt] returns the
    serialisation the specification describes: the sections of
    [context_files] in insertion order (delimiter token and path, then the
    raw content), the sections of [recent_diffs] in the given order
    (delimiter token and [<path>.diff], [original:] and its block,
    [updated:] and its block), the section [original/<file_path>] with
    [original_content], the section [current/<file_path>] with
    [current_content], and the bare header [updated/<file_path>] with
    nothing after it, all joined by line breaks. *)
Theorem build_prompt_serialization
    (files : list (pystr * pystr)) (items : list value) (diffs : list Diff)
    (path original current : pystr) :
  Forall2 is_diff items diffs ->
  build_prompt (context_value files) (VList items)
               (VStr path) (VStr original) (VStr current)
  = Ok (List.concat (List.map context_section files) ++
        List.concat (List.map diff_section diffs) ++
        section_text (lit "original/" ++ path) original ++
        section_text (lit "current/" ++ path) current ++
        FILE_SEP ++ lit "updated/" ++ path).
Proof. intros Hd. now apply build_prompt_typed. Qed.

(** ** Counting delimiter tokens *)

Lemma FILE_SEP_one_line : ~ In 10%N FILE_SEP.
Proof.
  intros H. cbv in H.
  repeat (destruct H as [H|H]; [discriminate H|]). exact H.
Qed.

Lemma FILE_SEP_not_empty : FILE_SEP <> [].
Proof. discriminate. Qed.

(** The token opens with ['<']: no occurrence starts at another character. *)
Lemma count_sub_skip (c : char) (s : pystr) :
  c <> 60%N -> count_sub FILE_SEP (c :: s) = count_sub FILE_SEP s.
Proof.
  intros Hc.
  change (count_sub FILE_SEP (c :: s))
    with ((if (60 =? c)%N && starts_with (tl FILE_SEP) s then 1 else 0)
          + count_sub FILE_SEP s)%nat.
  destruct (N.eqb_spec 60 c) as [E|_]; [congruence|reflexivity].
Qed.

Lemma count_sub_skip_all (pre s : pystr) :
  Forall (fun c => c <> 60%N) pre ->
  count_sub FILE_SEP (pre ++ s) = count_sub FILE_SEP s.
Proof.
  induction 1 as [|c pre Hc _ IH]; [reflexivity|].
  cbn [app]. now rewrite count_sub_skip.
Qed.

Lemma starts_with_app (pat s : pystr) : starts_with pat (pat ++ s) = true.
Proof.
  induction pat as [|p pat IH]; [reflexivity|].
  cbn [app starts_with]. now rewrite N.eqb_refl, IH.
Qed.

(** A section header holds the token once, provided its path holds none. *)
Lemma header_one_token (name path : pystr) :
  Forall (fun c => c <> 60%N) name ->
  is_substring FILE_SEP path = false ->
  count_sub FILE_SEP (FILE_SEP ++ name ++ path) = 1%nat.
Proof.
  intros Hname Hpath.
  assert (Hhead : forall s,
             count_sub FILE_SEP (FILE_SEP ++ s)
             = S (count_sub FILE_SEP (tl FILE_SEP ++ s))).
  { intros s.
    change (count_sub FILE_SEP (FILE_SEP ++ s))
      with ((if starts_with FILE_SEP (FILE_SEP ++ s) then 1 else 0)
            + count_sub FILE_SEP (tl FILE_SEP ++ s))%nat.
    now rewrite starts_with_app. }
  rewrite Hhead, count_sub_skip_all.
  - rewrite count_sub_skip_all by exact Hname.
    now rewrite count_sub_absent.
  - cbv. repeat constructor; discriminate.
Qed.

Lemma literal_has_no_token_start (name : string) :
  forallb (fun c => negb (c =? 60)%N) (lit name) = true ->
  Forall (fun c => c <> 60%N) (lit name).
Proof.
  intros H. apply Forall_forall. intros c Hc.
  rewrite forallb_forall in H. specialize (H c Hc).
  destruct (N.eqb_spec c 60); [discriminate|assumption].
Qed.

(** C4.  With no context files and no recent diffs the prompt is made of
    exactly three sections: [original/<file_path>] holding the original
    content, [current/<file_path>] holding the current content, and the
    empty [updated/<file_path>] marker; [build_prompt] joins five parts, the
    three headers and the two bodies.  When neither the path nor the two
    contents hold the delimiter token themselves, the token occurs exactly
    three times in the prompt. *)
Theorem empty_context_three_sections (path original current : pystr) :
  exists prompt,
    build_prompt (VDict []) (VList [])
                 (VStr path) (VStr original) (VStr current) = Ok prompt /\
    prompt_parts (VDict []) (VList [])
                 (VStr path) (VStr original) (VStr current)
    = Ok [VStr (FILE_SEP ++ lit "original/" ++ path); VStr original;
          VStr (FILE_SEP ++ lit "current/" ++ path); VStr current;
          VStr (FILE_SEP ++ lit "updated/" ++ path)] /\
    prompt = FILE_SEP ++ lit "original/" ++ path ++ NL ++ original ++ NL ++
             FILE_SEP ++ lit "current/" ++ path ++ NL ++ current ++ NL ++
             FILE_SEP ++ lit "updated/" ++ path /\
    (is_substring FILE_SEP path = false ->
     is_substring FILE_SEP original = false ->
     is_substring FILE_SEP current = false ->
     count_sub FILE_SEP prompt = 3%nat).
Proof.
  eexists. split; [|split; [|split]].
  - apply (build_prompt_typed [] [] [] path original current).
    constructor.
  - reflexivity.
  - unfold serialized_prompt.
    cbn [List.map List.concat app]. unfold section_text.
    now rewrite <- !app_assoc.
  - intros Hp Ho Hc. unfold serialized_prompt.
    cbn [List.map List.concat app]. unfold section_text.
    assert (E : (FILE_SEP ++ (lit "original/" ++ path) ++ NL ++ original ++ NL) ++
                (FILE_SEP ++ (lit "current/" ++ path) ++ NL ++ current ++ NL) ++
                FILE_SEP ++ lit "updated/" ++ path
                = (FILE_SEP ++ lit "original/" ++ path) ++ NL ++
                  original ++ NL ++
                  (FILE_SEP ++ lit "current/" ++ path) ++ NL ++
                  current ++ NL ++
                  (FILE_SEP ++ lit "updated/" ++ path)).
    { now rewrite <- !app_assoc. }
    rewrite E.
    rewrite !(count_sub_across_newline FILE_SEP _ _
                FILE_SEP_one_line FILE_SEP_not_empty).
    rewrite !header_one_token;
      try assumption;
      try (apply literal_has_no_token_start; reflexivity).
    rewrite (count_sub_absent _ _ Ho), (count_sub_absent _ _ Hc).
    reflexivity.
Qed.

(** ** Computations and their traces *)

Lemma stdout_of_app (a b : list event) :
  stdout_of (a ++ b) = stdout_of a ++ stdout_of b.
Proof.
  induction a as [|ev a IH]; [reflexivity|].
  destruct ev as [[|] payload| | | | | | | |]; simpl; now rewrite ?IH.
Qed.

Lemma stderr_of_app (a b : list event) :
  stderr_of (a ++ b) = stderr_of a ++ stderr_of b.
Proof.
  induction a as [|ev a IH]; [reflexivity|].
  destruct ev as [[|] payload| | | | | | | |]; simpl; now rewrite ?IH.
Qed.

Lemma in_stdout_of (t : list event) (v : value) :
  In (Print Stdout v) t -> In v (stdout_of t).
Proof.
  induction t as [|ev t IH]; [easy|].
  intros [->|H]; [now left|].
  destruct ev as [[|] payload| | | | | | | |]; simpl; auto.
Qed.

Section Events.

Variable P : event -> Prop.

Lemma all_events_bind {A B} (m : M A) (k : A -> M B) :
  Forall P (fst m) ->
  (forall a, snd m = Returned a -> Forall P (fst (k a))) ->
  Forall P (fst (bind m k)).
Proof.
  destruct m as [t [a|e|code]]; simpl; intros Ht Hk; try exact Ht.
  specialize (Hk a eq_refl). destruct (k a) as [t' r]. simpl in *.
  apply Forall_app. now split.
Qed.

Lemma all_events_try {A} (body : M A) (handler : exception -> option (M A)) :
  Forall P (fst body) ->
  (forall e h, handler e = Some h -> Forall P (fst h)) ->
  Forall P (fst (try_except body handler)).
Proof.
  destruct body as [t [a|e|code]]; simpl; intros Ht Hh; try exact Ht.
  destruct (handler e) as [[t' r]|] eqn:E; [|exact Ht].
  specialize (Hh e _ E). simpl in *. apply Forall_app. now split.
Qed.

Lemma all_events_lift {A} (r : result A) : Forall P (fst (lift r)).
Proof. constructor. Qed.

Lemma all_events_ret {A} (a : A) : Forall P (fst (ret a)).
Proof. constructor. Qed.

Lemma all_events_exit {A} (code : Z) : Forall P (fst (@sys_exit A code)).
Proof. constructor. Qed.

Lemma all_events_call {A} (ev : event) (answer : exception + A) :
  P ev -> Forall P (fst (call ev answer)).
Proof. intros H. now repeat constructor. Qed.

Lemma all_events_command (ev : event) (answer : option exception) :
  P ev -> Forall P (fst (command ev answer)).
Proof. intros H. now repeat constructor. Qed.

Lemma all_events_print (out : stream) (payload : value) :
  P (Print out payload) -> Forall P (fst (print_json out payload)).
Proof. intros H. now repeat constructor. Qed.

End Events.

Section Endings.

Variable on_exit : value -> Prop.

Lemma ends_with_bind {A B} (P : A -> Prop) (Q : list value -> B -> Prop)
    (m : M A) (k : A -> M B) :
  ends_with on_exit (silent P) m ->
  (forall a, P a -> ends_with on_exit Q (k a)) ->
  ends_with on_exit Q (bind m k).
Proof.
  destruct m as [t [a|e|code]]; simpl; intros Hm Hk; try exact Hm.
  destruct Hm as [Ht Pa]. specialize (Hk a Pa).
  destruct (k a) as [t' r]. unfold ends_with in *.
  now rewrite stdout_of_app, Ht.
Qed.

Lemma ends_with_try {A} (Q : list value -> A -> Prop)
    (body : M A) (handler : exception -> option (M A)) :
  ends_with on_exit Q body ->
  (forall e h, handler e = Some h -> ends_with on_exit Q h) ->
  ends_with on_exit Q (try_except body handler).
Proof.
  destruct body as [t [a|e|code]]; simpl; intros Hb Hh; try exact Hb.
  destruct (handler e) as [[t' r]|] eqn:E; [|exact Hb].
  specialize (Hh e _ E). unfold ends_with in *.
  now rewrite stdout_of_app, Hb.
Qed.

Lemma ends_with_lift {A} (P : A -> Prop) (r : result A) :
  (forall a, r = Ok a -> P a) -> ends_with on_exit (silent P) (lift r).
Proof.
  intros H. destruct r as [a|e]; simpl; [|reflexivity].
  split; [reflexivity|]. now apply H.
Qed.

Lemma ends_with_ret {A} (P : A -> Prop) (a : A) :
  P a -> ends_with on_exit (silent P) (ret a).
Proof. intros H. now split. Qed.

Lemma ends_with_call {A} (ev : event) (answer : exception + A) :
  stdout_of [ev] = [] ->
  ends_with on_exit (silent (fun _ => True)) (call ev answer).
Proof. intros H. destruct answer; simpl; [exact H|now split]. Qed.

Lemma ends_with_command (ev : event) (answer : option exception) :
  stdout_of [ev] = [] ->
  ends_with on_exit (silent (fun _ => True)) (command ev answer).
Proof. intros H. destruct answer; simpl; [exact H|now split]. Qed.

Lemma ends_with_progress (payload : value) :
  ends_with on_exit (silent (fun _ => True)) (print_json Stderr payload).
Proof. now split. Qed.

(** [print(json.dumps(v)); sys.exit(1)] *)
Lemma ends_with_report {A} (Q : list value -> A -> Prop) (v : value) :
  on_exit v ->
  ends_with on_exit Q (print_json Stdout v ;; sys_exit 1)%io.
Proof. intros H. simpl. split; [reflexivity|]. now exists v. Qed.

End Endings.


Lemma ends_with_returned {A} (E : value -> Prop) (P : A -> Prop)
    (m : M A) (a : A) :
  ends_with E (silent P) m -> snd m = Returned a -> P a.
Proof.
  destruct m as [t r]. simpl. intros H ->. now destruct H.
Qed.

(** ** The envelopes *)

Lemma registry_error_is_envelope (v : value) :
  registry_error v -> is_error_envelope v = true.
Proof. intros [->|[e ->]]; reflexivity. Qed.

Lemma protocol_error_is_envelope (v : value) :
  protocol_error v -> is_error_envelope v = true.
Proof. intros [->|[[f ->]|[[e ->]|[e ->]]]]; reflexivity. Qed.

Lemma prediction_outcome_kind (v : value) :
  prediction_outcome v ->
  xorb (is_prediction_result v) (is_error_envelope v) = true /\
  is_progress v = false /\
  error_kind v <> Some (VStr (lit "missing_field")).
Proof.
  intros [->|[[e ->]|(predicted & path & latency & tokens & ->)]];
    (split; [reflexivity|split; [reflexivity|discriminate]]).
Qed.

Lemma registry_error_kind (v : value) :
  registry_error v ->
  is_progress v = false /\ error_kind v <> Some (VStr (lit "missing_field")).
Proof. intros [->|[e ->]]; (split; [reflexivity|discriminate]). Qed.

Lemma protocol_error_not_progress (v : value) :
  protocol_error v -> is_progress v = false.
Proof. intros [->|[[f ->]|[[e ->]|[e ->]]]]; reflexivity. Qed.

(** ** get_model_path *)

Lemma download_model_ends (E : value -> Prop) (W : World) :
  ends_with E (silent (fun _ => True)) (download_model W).
Proof.
  unfold download_model.
  apply ends_with_bind with (P := fun _ => True);
    [now apply ends_with_command|intros _ _].
  apply ends_with_bind with (P := fun _ => True);
    [now apply ends_with_command|intros _ _].
  apply ends_with_bind with (P := fun _ => True);
    [now apply ends_with_call|intros downloaded_path _].
  apply ends_with_bind with (P := fun _ => True);
    [apply ends_with_progress|intros _ _].
  now apply ends_with_ret.
Qed.

Lemma get_model_path_ends (W : World) :
  ends_with registry_error (silent (fun _ => True)) (get_model_path W).
Proof.
  unfold get_model_path.
  apply ends_with_bind with (P := fun _ => True); [now split|].
  intros [|] _; [now apply ends_with_ret|].
  apply ends_with_bind with (P := fun _ => True);
    [apply ends_with_progress|intros _ _].
  apply ends_with_try; [apply download_model_ends|].
  intros e h Hh. destruct (is_ImportError e); injection Hh as <-;
    apply ends_with_report.
  - now left.
  - right. now exists e.
Qed.

(** The cache-hit path of [get_model_path]. *)
Lemma get_model_path_cached (W : World) :
  path_exists W (path_join (MODEL_DIR W) MODEL_FILENAME) = true ->
  get_model_path W
  = ([PathExists (path_join (MODEL_DIR W) MODEL_FILENAME)],
     Returned (path_join (MODEL_DIR W) MODEL_FILENAME)).
Proof. intros H. unfold get_model_path. simpl. now rewrite H. Qed.


(** ** predict *)

Lemma generate_ends (E : value -> Prop) (W : World) (input_data : value)
    (model_path prompt : pystr) :
  ends_with E (silent prediction_outcome)
            (generate W input_data model_path prompt).
Proof.
  unfold generate.
  apply ends_with_bind with (P := fun _ => True);
    [now apply ends_with_command|intros _ _].
  apply ends_with_bind with (P := fun _ => True);
    [now apply ends_with_lift|intros limit _].
  apply ends_with_bind with (P := fun _ => True);
    [now apply ends_with_lift|intros temp _].
  apply ends_with_bind with (P := fun _ => True);
    [now apply ends_with_call|intros output _].
  apply ends_with_bind with (P := fun _ => True);
    [now apply ends_with_lift|intros path _].
  apply ends_with_ret. right. right. now eexists _, _, _, _.
Qed.

Lemma predict_ends (W : World) (input_data : value) :
  ends_with registry_error (silent prediction_outcome) (predict W input_data).
Proof.
  unfold predict.
  apply ends_with_bind
    with (P := fun early => forall error, early = Some error ->
                                          error = llama_missing_error).
  - apply ends_with_try.
    + apply ends_with_bind with (P := fun _ => True);
        [now apply ends_with_command|intros _ _].
      now apply ends_with_ret.
    + intros e h Hh. destruct (is_ImportError e); [|discriminate].
      injection Hh as <-. apply ends_with_ret. congruence.
  - intros [error|] Hearly.
    + apply ends_with_ret. left. now apply Hearly.
    + apply ends_with_bind with (P := fun _ => True);
        [apply get_model_path_ends|intros model_path _].
      apply ends_with_bind with (P := fun _ => True);
        [now apply ends_with_lift|intros prompt _].
      apply ends_with_try; [apply generate_ends|].
      intros e h Hh. injection Hh as <-.
      apply ends_with_ret. right. left. now exists e.
Qed.

(** ** main *)




(** ** Events of a whole run *)

Section Discipline.

Variable P : event -> Prop.
Variable W : World.

Hypothesis P_call : forall ev,
  is_print ev = false -> touches_registry ev = false -> P ev.
Hypothesis P_result : forall v, is_progress v = false -> P (Print Stdout v).
Hypothesis P_model : Forall P (fst (get_model_path W)).

Lemma generate_events (input_data : value) (model_path prompt : pystr) :
  Forall P (fst (generate W input_data model_path prompt)).
Proof.
  unfold generate.
  apply all_events_bind; [now apply all_events_command, P_call|intros _ _].
  apply all_events_bind; [apply all_events_lift|intros limit _].
  apply all_events_bind; [apply all_events_lift|intros temp _].
  apply all_events_bind; [now apply all_events_call, P_call|intros output _].
  apply all_events_bind; [apply all_events_lift|intros path _].
  apply all_events_ret.
Qed.

Lemma predict_events (input_data : value) :
  Forall P (fst (predict W input_data)).
Proof.
  unfold predict.
  apply all_events_bind.
  - apply all_events_try.
    + apply all_events_bind;
        [now apply all_events_command, P_call|intros _ _].
      apply all_events_ret.
    + intros e h Hh. destruct (is_ImportError e); [|discriminate].
      injection Hh as <-. apply all_events_ret.
  - intros [error|] _; [apply all_events_ret|].
    apply all_events_bind; [exact P_model|intros path _].
    apply all_events_bind; [apply all_events_lift|intros prompt _].
    apply all_events_try; [apply generate_events|].
    intros e h Hh. injection Hh as <-. apply all_events_ret.
Qed.

Lemma require_field_events (key : pystr) (input_data : value) :
  Forall P (fst (require_field key input_data)).
Proof.
  unfold require_field.
  apply all_events_bind; [apply all_events_lift|].
  intros [|] _; [apply all_events_ret|].
  repeat constructor. now apply P_result.
Qed.

Lemma main_events : Forall P (fst (main W)).
Proof.
  unfold main. apply all_events_try.
  - apply all_events_bind;
      [now apply all_events_call, P_call|intros input_text _].
    apply all_events_bind.
    { destruct (is_empty (strip input_text)); [|apply all_events_ret].
      repeat constructor. now apply P_result. }
    intros _ _.
    apply all_events_bind;
      [now apply all_events_call, P_call|intros input_data _].
    apply all_events_bind; [apply require_field_events|intros _ _].
    apply all_events_bind; [apply require_field_events|intros _ _].
    apply all_events_bind; [apply predict_events|].
    intros result Hresult. apply all_events_print, P_result.
    now apply (prediction_outcome_kind result),
              (ends_with_returned _ _ _ _ (predict_ends W input_data)).
  - intros e h Hh. unfold report_failure in Hh.
    destruct (is_JSONDecodeError e); injection Hh as <-;
      repeat constructor; now apply P_result.
Qed.

End Discipline.




(** C8.  When the model file is already in the cache directory,
    [get_model_path] returns its path after the existence test alone: no
    import, no directory creation, no download, no message.  A whole
    invocation in such a world never reaches the registry nor writes to
    the cache, so a model that is present is not downloaded again. *)
Theorem cached_model_is_reused (W : World) :
  path_exists W (path_join (MODEL_DIR W) MODEL_FILENAME) = true ->
  get_model_path W
  = ([PathExists (path_join (MODEL_DIR W) MODEL_FILENAME)],
     Returned (path_join (MODEL_DIR W) MODEL_FILENAME)) /\
  Forall (fun ev => touches_registry ev = false) (fst (main W)).
Proof.
  intros Hcached. split; [now apply get_model_path_cached|].
  apply main_events.
  - intros ev _ H. exact H.
  - reflexivity.
  - rewrite (get_model_path_cached W Hcached). now repeat constructor.
Qed.

(** ** Runs of main, step by step *)

Lemma bind_ret {A B} (a : A) (k : A -> M B) : bind (ret a) k = k a.
Proof. unfold bind, ret. now destruct (k a). Qed.

Lemma bind_lift_ok {A B} (a : A) (k : A -> M B) : bind (lift (Ok a)) k = k a.
Proof. unfold bind, lift. now destruct (k a). Qed.

Lemma bind_call_returned {A B} (ev : event) (a : A) (k : A -> M B) :
  bind (call ev (inr a)) k = after [ev] (k a).
Proof. unfold bind, call, after. now destruct (k a). Qed.

Lemma bind_command_done {B} (ev : event) (k : unit -> M B) :
  bind (command ev None) k = after [ev] (k tt).
Proof. unfold bind, command, after. now destruct (k tt). Qed.

Lemma after_after {A} (a b : list event) (m : M A) :
  after a (after b m) = after (a ++ b) m.
Proof. unfold after. simpl. now rewrite app_assoc. Qed.



(** Past the parser, [main] is the two presence tests followed by the
    prediction and the final [print]. *)
Lemma main_on_parsed_input (W : World) (input_text : pystr) (input_data : value) :
  stdin_read W = inr input_text ->
  forallb is_space input_text = false ->
  json_loads input_text = inr input_data ->
  main W
  = try_except
      (after [StdinRead; JsonLoads input_text]
         (require_field (lit "file_path") input_data ;;
          require_field (lit "current_content") input_data ;;
          result <- predict W input_data ;;
          print_json Stdout result)%io)
      report_failure.
Proof.
  intros Hread Hblank Hloads. unfold main.
  rewrite Hread, bind_call_returned.
  rewrite strip_empty_iff_blank, Hblank, bind_ret.
  rewrite Hloads, bind_call_returned, after_after.
  reflexivity.
Qed.

Lemma has_key_found (key : pystr) (entries : list (pystr * value)) (v : value) :
  lookup key entries = Some v -> has_key key entries = true.
Proof. unfold has_key. now intros ->. Qed.

Lemma require_field_present (key : pystr) (entries : list (pystr * value)) :
  has_key key entries = true -> require_field key (VDict entries) = ret tt.
Proof.
  intros H. unfold require_field. cbn [py_contains].
  now rewrite bind_lift_ok, H.
Qed.


Lemma main_on_valid_request (W : World) (input_text : pystr)
    (entries : list (pystr * value)) :
  stdin_read W = inr input_text ->
  forallb is_space input_text = false ->
  json_loads input_text = inr (VDict entries) ->
  has_key (lit "file_path") entries = true ->
  has_key (lit "current_content") entries = true ->
  main W
  = try_except
      (after [StdinRead; JsonLoads input_text]
         (result <- predict W (VDict entries) ;; print_json Stdout result)%io)
      report_failure.
Proof.
  intros Hread Hblank Hloads Hpath Hcontent.
  rewrite (main_on_parsed_input W input_text _ Hread Hblank Hloads).
  now rewrite !require_field_present, !bind_ret.
Qed.

(** What a run on a valid request shows of the prediction stage. *)
Lemma main_follows_predict (W : World) (input_text : pystr)
    (entries : list (pystr * value)) :
  stdin_read W = inr input_text ->
  forallb is_space input_text = false ->
  json_loads input_text = inr (VDict entries) ->
  has_key (lit "file_path") entries = true ->
  has_key (lit "current_content") entries = true ->
  (exists tail,
      fst (main W)
      = StdinRead :: JsonLoads input_text ::
        fst (predict W (VDict entries)) ++ tail) /\
  match snd (predict W (VDict entries)) with
  | Returned v =>
      stdout_of (fst (main W))
      = stdout_of (fst (predict W (VDict entries))) ++ [v] /\
      exit_code (main W) = 0
  | Exited code =>
      stdout_of (fst (main W)) = stdout_of (fst (predict W (VDict entries))) /\
      exit_code (main W) = code
  | Raised e =>
      stdout_of (fst (main W))
      = stdout_of (fst (predict W (VDict entries))) ++
        [if is_JSONDecodeError e then invalid_json_error e
         else unexpected_error e] /\
      exit_code (main W) = 1
  end.
Proof.
  intros Hread Hblank Hloads Hpath Hcontent.
  rewrite (main_on_valid_request W input_text entries
             Hread Hblank Hloads Hpath Hcontent).
  destruct (predict W (VDict entries)) as [t [v|e|code]];
    cbn [fst snd bind print_json after try_except app].
  - split; [now exists [Print Stdout v]|].
    split; [|reflexivity].
    cbn [stdout_of]. now rewrite stdout_of_app.
  - unfold report_failure.
    destruct (is_JSONDecodeError e);
      cbn [fst snd bind print_json sys_exit after try_except app];
      (split; [eexists; cbn [app]; try rewrite <- app_assoc; reflexivity|]);
      (split; [|reflexivity]);
      cbn [stdout_of]; now rewrite stdout_of_app.
  - split; [exists []; now rewrite app_nil_r|].
    now split.
Qed.

Lemma predict_first_event (W : World) (input_data : value) :
  exists rest, fst (predict W input_data) = Import (lit "llama_cpp") :: rest.
Proof.
  unfold predict.
  destruct (import_module W (lit "llama_cpp")) as [e|].
  - cbn [command bind try_except].
    destruct (is_ImportError e);
      cbn [ret bind fst app]; eexists; reflexivity.
  - rewrite bind_command_done. cbn [after ret fst snd app try_except bind].
    match goal with
    | |- context [let (_, _) := ?m in _] => destruct m as [t r]
    end.
    eexists; reflexivity.
Qed.



(** C10.  Validation looks at the keys only.  A parsed object that has the
    keys [file_path] and [current_content], whatever their values ([null]
    included), passes both tests: the run goes on with [predict], whose
    first step is the import of [llama_cpp], and the one object written to
    standard output is not a [missing_field] envelope. *)
Theorem validation_tests_presence_only (W : World) (input_text : pystr)
    (entries : list (pystr * value)) (path content : value) :
  stdin_read W = inr input_text ->
  forallb is_space input_text = false ->
  json_loads input_text = inr (VDict entries) ->
  lookup (lit "file_path") entries = Some path ->
  lookup (lit "current_content") entries = Some content ->
  (exists tail,
      fst (main W)
      = StdinRead :: JsonLoads input_text ::
        fst (predict W (VDict entries)) ++ tail) /\
  In (Import (lit "llama_cpp")) (fst (main W)) /\
  (exists v,
      stdout_of (fst (main W)) = [v] /\
      error_kind v <> Some (VStr (lit "missing_field"))).
Proof.
  intros Hread Hblank Hloads Hpath Hcontent.
  destruct (main_follows_predict W input_text entries Hread Hblank Hloads
              (has_key_found _ _ _ Hpath) (has_key_found _ _ _ Hcontent))
    as [[tail Htrace] Hout].
  split; [now exists tail|]. split.
  - rewrite Htrace.
    destruct (predict_first_event W (VDict entries)) as [rest ->].
    right. right. now left.
  - pose proof (predict_ends W (VDict entries)) as Hends.
    destruct (predict W (VDict entries)) as [t [v|e|code]];
      simpl in Hends, Hout; destruct Hout as [-> _].
    + destruct Hends as [-> Hv]. exists v. split; [reflexivity|].
      now apply prediction_outcome_kind.
    + rewrite Hends. eexists. split; [reflexivity|].
      destruct (is_JSONDecodeError e); discriminate.
    + destruct Hends as (_ & v & -> & Hv). exists v. split; [reflexivity|].
      now apply registry_error_kind.
Qed.

(** ** Failures of the prediction stage *)

Lemma snd_bind {A B} (m : M A) (k : A -> M B) :
  snd (bind m k)
  = match snd m with
    | Returned a => snd (k a)
    | Raised e => Raised e
    | Exited code => Exited code
    end.
Proof.
  destruct m as [t [a|e|code]]; simpl; try reflexivity. now destruct (k a).
Qed.


Lemma snd_try {A} (body : M A) (handler : exception -> option (M A)) :
  snd (try_except body handler)
  = match snd body with
    | Raised e =>
        match handler e with
        | Some h => snd h
        | None => Raised e
        end
    | ending => ending
    end.
Proof.
  destruct body as [t [a|e|code]]; simpl; try reflexivity.
  now destruct (handler e) as [[t' r]|].
Qed.





(** ** The prompt of a request *)

Lemma predict_prompt_typed (entries : list (pystr * value))
    (r : PredictionRequest) :
  represents entries r ->
  predict_prompt (VDict entries)
  = Ok (serialized_prompt (context_files r) (recent_diffs r) (file_path r)
                          (effective_original r) (current_content r)).
Proof.
  intros (Hpath & Hcurrent & Horiginal & Hfiles & Hdiffs & _).
  unfold predict_prompt. cbn [py_get py_getitem].
  rewrite Hpath, Hcurrent, Horiginal.
  assert (Heff : match option_map VStr (original_content r) with
                 | Some v => Ok v
                 | None => Ok (VStr (current_content r))
                 end = Ok (VStr (effective_original r))).
  { unfold effective_original. now destruct (original_content r). }
  destruct Hfiles as [Hfiles|[Hfiles Hnone]];
    destruct Hdiffs as [(items & Hdiffs & Hall)|[Hdiffs Hnil]];
    rewrite Hfiles, Hdiffs; cbn [rbind]; rewrite Heff; cbn [rbind].
  - now apply build_prompt_typed.
  - rewrite Hnil. now apply build_prompt_typed.
  - rewrite Hnone. now apply (build_prompt_typed []).
  - rewrite Hnone, Hnil. now apply (build_prompt_typed [] []).
Qed.

(** C3.  The prompt is a function of five fields of the request: two
    request objects that carry the same context files and the same recent
    diffs in the same order, the same file path, the same original content
    and the same current content yield one and the same prompt, whatever
    else they hold (other fields, other keys, another order of keys). *)
Theorem prompt_determined_by_fields
    (entries1 entries2 : list (pystr * value)) (r1 r2 : PredictionRequest) :
  represents entries1 r1 ->
  represents entries2 r2 ->
  context_files r1 = context_files r2 ->
  recent_diffs r1 = recent_diffs r2 ->
  file_path r1 = file_path r2 ->
  original_content r1 = original_content r2 ->
  current_content r1 = current_content r2 ->
  exists prompt,
    predict_prompt (VDict entries1) = Ok prompt /\
    predict_prompt (VDict entries2) = Ok prompt.
Proof.
  intros H1 H2 Hfiles Hdiffs Hpath Horiginal Hcurrent.
  eexists. split; [exact (predict_prompt_typed entries1 r1 H1)|].
  rewrite (predict_prompt_typed entries2 r2 H2).
  unfold effective_original.
  now rewrite Hfiles, Hdiffs, Hpath, Horiginal, Hcurrent.
Qed.

(** C7.  A request object without the key [original_content] has its
    [current_content] passed to [build_prompt] twice, as the original and
    as the current content; for a request whose fields are strings the
    section [original/<file_path>] of the prompt therefore holds exactly
    the current content. *)
Theorem original_defaults_to_current (entries : list (pystr * value)) :
  lookup (lit "original_content") entries = None ->
  (forall path current,
      lookup (lit "file_path") entries = Some path ->
      lookup (lit "current_content") entries = Some current ->
      predict_prompt (VDict entries)
      = build_prompt
          match lookup (lit "context_files") entries with
          | Some files => files
          | None => VDict []
          end
          match lookup (lit "recent_diffs") entries with
          | Some diffs => diffs
          | None => VList []
          end
          path current current) /\
  (forall r,
      represents entries r ->
      predict_prompt (VDict entries)
      = Ok (List.concat (List.map context_section (context_files r)) ++
            List.concat (List.map diff_section (recent_diffs r)) ++
            section_text (lit "original/" ++ file_path r) (current_content r) ++
            section_text (lit "current/" ++ file_path r) (current_content r) ++
            FILE_SEP ++ lit "updated/" ++ file_path r)).
Proof.
  intros Habsent. split.
  - intros path current Hpath Hcurrent.
    unfold predict_prompt. cbn [py_get py_getitem].
    rewrite Hpath, Hcurrent, Habsent.
    destruct (lookup (lit "context_files") entries);
      destruct (lookup (lit "recent_diffs") entries); reflexivity.
  - intros r Hr. rewrite (predict_prompt_typed entries r Hr).
    destruct Hr as (_ & _ & Horiginal & _).
    rewrite Habsent in Horiginal. unfold effective_original.
    destruct (original_content r); [discriminate|reflexivity].
Qed.

(** * Further properties *)

(** ** Where an event of a run comes from *)

Lemma in_bind {A B} (ev : event) (m : M A) (k : A -> M B) :
  In ev (fst (bind m k)) ->
  In ev (fst m) \/ exists a, snd m = Returned a /\ In ev (fst (k a)).
Proof.
  destruct m as [t [a|e|code]]; simpl; auto.
  destruct (k a) as [t' r] eqn:E. simpl. intros H.
  apply in_app_or in H as [H|H]; [now left|].
  right. exists a. rewrite E. now split.
Qed.

Lemma in_try {A} (ev : event) (body : M A)
    (handler : exception -> option (M A)) :
  In ev (fst (try_except body handler)) ->
  In ev (fst body) \/
  exists e h, snd body = Raised e /\ handler e = Some h /\ In ev (fst h).
Proof.
  destruct body as [t [a|e|code]]; simpl; auto.
  destruct (handler e) as [[t' r]|] eqn:E; simpl; auto.
  intros H. apply in_app_or in H as [H|H]; [now left|].
  right. now exists e, (t', r).
Qed.

Lemma in_lift {A} (ev : event) (r : result A) : ~ In ev (fst (lift r)).
Proof. now intros []. Qed.

Lemma in_call {A} (ev ev' : event) (answer : exception + A) :
  In ev (fst (call ev' answer)) -> ev = ev'.
Proof. now intros [->|[]]. Qed.

Lemma in_command (ev ev' : event) (answer : option exception) :
  In ev (fst (command ev' answer)) -> ev = ev'.
Proof. now intros [->|[]]. Qed.

Lemma snd_call {A} (ev : event) (answer : exception + A) (a : A) :
  snd (call ev answer) = Returned a -> answer = inr a.
Proof. destruct answer; simpl; congruence. Qed.

Lemma snd_command (ev : event) (answer : option exception) (u : unit) :
  snd (command ev answer) = Returned u -> answer = None.
Proof. destruct answer; simpl; congruence. Qed.

Lemma snd_lift {A} (r : result A) (a : A) :
  snd (lift r) = Returned a -> r = Ok a.
Proof. destruct r; simpl; congruence. Qed.

Lemma download_model_event (W : World) (ev : event) :
  In ev (fst (download_model W)) ->
  ev = Import (lit "huggingface_hub") \/
  import_module W (lit "huggingface_hub") = None /\
  (ev = Mkdir (MODEL_DIR W) \/
   mkdir W (MODEL_DIR W) = None /\
   (ev = HfHubDownload MODEL_REPO MODEL_FILENAME (MODEL_DIR W) \/
    exists downloaded_path,
      hf_hub_download W MODEL_REPO MODEL_FILENAME (MODEL_DIR W)
      = inr downloaded_path /\
      ev = Print Stderr (downloaded_message downloaded_path))).
Proof.
  unfold download_model. intros H.
  apply in_bind in H as [H|(u1 & Himport & H)];
    [left; now apply in_command in H|].
  apply snd_command in Himport. right. split; [exact Himport|].
  apply in_bind in H as [H|(u2 & Hmkdir & H)];
    [left; now apply in_command in H|].
  apply snd_command in Hmkdir. right. split; [exact Hmkdir|].
  apply in_bind in H as [H|(path & Hdown & H)];
    [left; now apply in_call in H|].
  apply snd_call in Hdown. right. exists path. split; [exact Hdown|].
  apply in_bind in H as [H|(u3 & _ & H)]; [|now destruct H].
  now destruct H as [<-|[]].
Qed.

Lemma get_model_path_event (W : World) (ev : event) :
  In ev (fst (get_model_path W)) ->
  ev = PathExists (path_join (MODEL_DIR W) MODEL_FILENAME) \/
  path_exists W (path_join (MODEL_DIR W) MODEL_FILENAME) = false /\
  (ev = Print Stderr downloading_message \/
   In ev (fst (download_model W)) \/
   exists v, ev = Print Stdout v).
Proof.
  unfold get_model_path. intros H.
  apply in_bind in H as [H|(present & Hpresent & H)].
  { left. now destruct H as [<-|[]]. }
  simpl in Hpresent. injection Hpresent as Hpresent.
  destruct present; [now destruct H|].
  right. split; [now symmetry|].
  apply in_bind in H as [H|(u & _ & H)].
  { left. now destruct H as [<-|[]]. }
  right. apply in_try in H as [H|(e & h & _ & Hh & H)]; [now left|].
  right. destruct (is_ImportError e); injection Hh as <-;
    destruct H as [<-|[]]; now eexists.
Qed.

Lemma generate_event (W : World) (input_data : value)
    (model_path prompt : pystr) (ev : event) :
  In ev (fst (generate W input_data model_path prompt)) ->
  ev = LlamaLoad model_path 8192 (n_threads W) \/
  llama_load W model_path 8192 (n_threads W) = None /\
  exists limit temp,
    py_get input_data (lit "max_tokens") (VInt 512) = Ok limit /\
    py_get input_data (lit "temperature") (VFloat (S754_zero false)) = Ok temp /\
    ev = LlamaCall prompt limit temp STOP.
Proof.
  unfold generate. intros H.
  apply in_bind in H as [H|(u & Hload & H)];
    [left; now apply in_command in H|].
  apply snd_command in Hload. right. split; [exact Hload|].
  apply in_bind in H as [H|(limit & Hlimit & H)]; [now apply in_lift in H|].
  apply snd_lift in Hlimit.
  apply in_bind in H as [H|(temp & Htemp & H)]; [now apply in_lift in H|].
  apply snd_lift in Htemp.
  exists limit, temp. split; [exact Hlimit|]. split; [exact Htemp|].
  apply in_bind in H as [H|(output & _ & H)]; [now apply in_call in H|].
  apply in_bind in H as [H|(path & _ & H)]; [now apply in_lift in H|].
  now destruct H.
Qed.

Lemma predict_event (W : World) (input_data : value) (ev : event) :
  In ev (fst (predict W input_data)) ->
  ev = Import (lit "llama_cpp") \/
  import_module W (lit "llama_cpp") = None /\
  (In ev (fst (get_model_path W)) \/
   exists model_path prompt,
     snd (get_model_path W) = Returned model_path /\
     predict_prompt input_data = Ok prompt /\
     In ev (fst (generate W input_data model_path prompt))).
Proof.
  unfold predict. intros H.
  apply in_bind in H as [H|(early & Hearly & H)].
  - left. apply in_try in H as [H|(e & h & _ & Hh & H)].
    + apply in_bind in H as [H|(u & _ & H)];
        [now apply in_command in H|now destruct H].
    + destruct (is_ImportError e); [|discriminate].
      injection Hh as <-. now destruct H.
  - rewrite snd_try, snd_bind in Hearly. cbn [command snd] in Hearly.
    destruct (import_module W (lit "llama_cpp")) as [e|] eqn:Himport.
    + destruct (is_ImportError e); [|discriminate].
      injection Hearly as <-. now destruct H.
    + injection Hearly as <-. right. split; [reflexivity|].
      apply in_bind in H as [H|(model_path & Hmodel & H)]; [now left|].
      apply in_bind in H as [H|(prompt & Hprompt & H)];
        [now apply in_lift in H|].
      apply snd_lift in Hprompt.
      right. exists model_path, prompt. split; [exact Hmodel|].
      split; [exact Hprompt|].
      apply in_try in H as [H|(e & h & _ & Hh & H)]; [exact H|].
      injection Hh as <-. now destruct H.
Qed.

Lemma require_field_event (key : pystr) (input_data : value) (ev : event) :
  In ev (fst (require_field key input_data)) -> exists v, ev = Print Stdout v.
Proof.
  unfold require_field. intros H.
  apply in_bind in H as [H|(present & _ & H)]; [now apply in_lift in H|].
  destruct present; [now destruct H|].
  destruct H as [<-|[]]. now eexists.
Qed.

Lemma require_field_returned (key : pystr) (input_data : value) (u : unit) :
  snd (require_field key input_data) = Returned u ->
  py_contains key input_data = Ok true.
Proof.
  unfold require_field. rewrite snd_bind.
  destruct (py_contains key input_data) as [[|]|e]; simpl;
    [reflexivity|discriminate|discriminate].
Qed.

(** Every event of a run is the read, a line on standard output, or comes
    after a read that gave text with more than whitespace; the events of
    [predict] come after a successful parse and two passed presence
    tests. *)
Lemma main_event (W : World) (ev : event) :
  In ev (fst (main W)) ->
  ev = StdinRead \/
  (exists v, ev = Print Stdout v) \/
  exists input_text,
    stdin_read W = inr input_text /\
    forallb is_space input_text = false /\
    (ev = JsonLoads input_text \/
     exists input_data,
       json_loads input_text = inr input_data /\
       py_contains (lit "file_path") input_data = Ok true /\
       py_contains (lit "current_content") input_data = Ok true /\
       In ev (fst (predict W input_data))).
Proof.
  unfold main. intros H.
  apply in_try in H as [H|(e & h & _ & Hh & H)].
  2:{ right. left. unfold report_failure in Hh.
      destruct (is_JSONDecodeError e); injection Hh as <-;
        destruct H as [<-|[]]; now eexists. }
  apply in_bind in H as [H|(input_text & Hread & H)];
    [left; now apply in_call in H|].
  apply snd_call in Hread.
  apply in_bind in H as [H|(u & Hblank & H)].
  { right. left. destruct (is_empty (strip input_text));
      [destruct H as [<-|[]]; now eexists|now destruct H]. }
  assert (Htext : forallb is_space input_text = false).
  { rewrite <- strip_empty_iff_blank.
    destruct (is_empty (strip input_text)); [discriminate|reflexivity]. }
  apply in_bind in H as [H|(input_data & Hloads & H)].
  { right. right. exists input_text. apply in_call in H. auto. }
  apply snd_call in Hloads.
  apply in_bind in H as [H|(u1 & Hpath & H)].
  { right. left. now apply require_field_event in H. }
  apply require_field_returned in Hpath.
  apply in_bind in H as [H|(u2 & Hcontent & H)].
  { right. left. now apply require_field_event in H. }
  apply require_field_returned in Hcontent.
  apply in_bind in H as [H|(result & _ & H)].
  - right. right. exists input_text. split; [exact Hread|].
    split; [exact Htext|]. right. now exists input_data.
  - right. left. destruct H as [<-|[]]. now eexists.
Qed.

(** ** What a run never does *)

Lemma predict_prompt_needs_object (input_data : value) (prompt : pystr) :
  predict_prompt input_data = Ok prompt ->
  exists entries, input_data = VDict entries.
Proof.
  destruct input_data; try discriminate. intros _. now eexists.
Qed.

Lemma py_get_object (entries : list (pystr * value)) (key : pystr)
    (default : value) :
  py_get (VDict entries) key default = Ok (get_or default key entries).
Proof. unfold py_get, get_or. now destruct (lookup key entries). Qed.




(** X1.  Nothing of the prediction stage happens for a request that did
    not pass validation: an import, a look at the cache, a directory
    creation, a download, a load of the model or a call of the runtime
    occurs in a run only if standard input held more than whitespace,
    [json.loads] returned a value, and both membership tests on that value
    came out true. *)
Theorem prediction_stage_needs_valid_request (W : World) (ev : event) :
  In ev (fst (main W)) ->
  prediction_stage_event ev = true ->
  exists input_text input_data,
    stdin_read W = inr input_text /\
    forallb is_space input_text = false /\
    json_loads input_text = inr input_data /\
    py_contains (lit "file_path") input_data = Ok true /\
    py_contains (lit "current_content") input_data = Ok true.
Proof.
  intros Hin Hstage.
  apply main_event in Hin
    as [->|[[v ->]|(input_text & Hread & Htext & [->|Hpredict])]];
    try discriminate.
  destruct Hpredict as (input_data & Hloads & Hpath & Hcontent & _).
  now exists input_text, input_data.
Qed.

(** X2.  The registry is asked for one artifact only, and only when it is
    needed: a download event in a run names the fixed repository and file
    name and the cache directory, and it occurs only if the model file was
    not in the cache, [llama_cpp] and [huggingface_hub] could be imported,
    and the cache directory could be created. *)
Theorem download_only_when_needed (W : World)
    (repo_id filename local_dir : pystr) :
  In (HfHubDownload repo_id filename local_dir) (fst (main W)) ->
  repo_id = MODEL_REPO /\ filename = MODEL_FILENAME /\
  local_dir = MODEL_DIR W /\
  path_exists W (path_join (MODEL_DIR W) MODEL_FILENAME) = false /\
  import_module W (lit "llama_cpp") = None /\
  import_module W (lit "huggingface_hub") = None /\
  mkdir W (MODEL_DIR W) = None.
Proof.
  intros Hin.
  apply main_event in Hin
    as [H|[[v H]|(input_text & _ & _ & [H|Hpredict])]];
    try discriminate.
  destruct Hpredict as (input_data & _ & _ & _ & Hin).
  apply predict_event in Hin as [H|[Hllama [Hin|Hgen]]]; try discriminate.
  - apply get_model_path_event in Hin as [H|[Hcold [H|[Hin|[v H]]]]];
      try discriminate.
    apply download_model_event in Hin
      as [H|[Hhub [H|[Hmkdir [H|(p & _ & H)]]]]]; try discriminate.
    injection H as -> -> ->. repeat split; assumption.
  - destruct Hgen as (model_path & prompt & _ & _ & Hin).
    apply generate_event in Hin as [H|[_ (limit & temp & _ & _ & H)]];
      discriminate.
Qed.

(** X3.  The runtime is called with the prompt of the request and nothing
    else: a call event in a run carries the prompt [build_prompt] made for
    the parsed request object, the request's [max_tokens] and
    [temperature] or the defaults 512 and 0.0, and the two stop
    sequences. *)
Theorem runtime_is_called_with_request_prompt (W : World)
    (prompt : pystr) (limit temp : value) (stop : list pystr) :
  In (LlamaCall prompt limit temp stop) (fst (main W)) ->
  exists input_text entries,
    stdin_read W = inr input_text /\
    json_loads input_text = inr (VDict entries) /\
    predict_prompt (VDict entries) = Ok prompt /\
    limit = get_or (VInt 512) (lit "max_tokens") entries /\
    temp = get_or (VFloat (S754_zero false)) (lit "temperature") entries /\
    stop = [lit "<|file_sep|>"; lit "</s>"].
Proof.
  intros Hin.
  apply main_event in Hin
    as [H|[[v H]|(input_text & Hread & _ & [H|Hpredict])]];
    try discriminate.
  destruct Hpredict as (input_data & Hloads & _ & _ & Hin).
  apply predict_event in Hin as [H|[_ [Hin|Hgen]]]; try discriminate.
  - apply get_model_path_event in Hin as [H|[_ [H|[Hin|[v H]]]]];
      try discriminate.
    apply download_model_event in Hin
      as [H|[_ [H|[_ [H|(p & _ & H)]]]]]; discriminate.
  - destruct Hgen as (model_path & built & _ & Hprompt & Hin).
    destruct (predict_prompt_needs_object _ _ Hprompt) as [entries ->].
    apply generate_event in Hin
      as [H|[_ (limit' & temp' & Hlimit & Htemp & H)]]; [discriminate|].
    rewrite py_get_object in Hlimit, Htemp.
    injection Hlimit as <-. injection Htemp as <-. injection H as -> -> -> ->.
    exists input_text, entries. repeat split; assumption.
Qed.


(** ** Exit status and outcome *)


Lemma predict_with_working_runtime (W : World) (entries : list (pystr * value))
    (model_path prompt : pystr) (output : completion) (path : value) :
  import_module W (lit "llama_cpp") = None ->
  snd (get_model_path W) = Returned model_path ->
  predict_prompt (VDict entries) = Ok prompt ->
  llama_load W model_path 8192 (n_threads W) = None ->
  llama_call W prompt
             (get_or (VInt 512) (lit "max_tokens") entries)
             (get_or (VFloat (S754_zero false)) (lit "temperature") entries)
             STOP = inr output ->
  lookup (lit "file_path") entries = Some path ->
  snd (predict W (VDict entries))
  = Returned (prediction_result (text output) path (elapsed_ms W)
                                (completion_tokens output)).
Proof.
  intros Himport Hmodel Hprompt Hload Hcall Hpath. unfold predict.
  rewrite snd_bind, snd_try, snd_bind. cbn [command snd].
  rewrite Himport. cbn [ret snd].
  rewrite snd_bind, Hmodel, snd_bind, Hprompt. cbn [lift snd].
  rewrite snd_try. unfold generate.
  rewrite snd_bind, Hload. cbn [command snd].
  rewrite snd_bind, py_get_object. cbn [lift snd].
  rewrite snd_bind, py_get_object. cbn [lift snd].
  rewrite snd_bind, Hcall. cbn [call snd].
  rewrite snd_bind. cbn [py_getitem]. rewrite Hpath. reflexivity.
Qed.

(** X6.  The successful run.  For a request object with both required
    keys whose prompt can be built, with [llama_cpp] importable, the model
    resolved, and a runtime that loads and answers, the one object on
    standard output is the prediction result: [success] true, the text and
    token count the runtime reported, the measured latency, and the
    request's own [file_path] echoed back; the exit status is 0. *)
Theorem successful_prediction (W : World) (input_text : pystr)
    (entries : list (pystr * value)) (model_path prompt : pystr)
    (output : completion) (path : value) :
  stdin_read W = inr input_text ->
  forallb is_space input_text = false ->
  json_loads input_text = inr (VDict entries) ->
  lookup (lit "file_path") entries = Some path ->
  has_key (lit "current_content") entries = true ->
  import_module W (lit "llama_cpp") = None ->
  snd (get_model_path W) = Returned model_path ->
  predict_prompt (VDict entries) = Ok prompt ->
  llama_load W model_path 8192 (n_threads W) = None ->
  llama_call W prompt
             (get_or (VInt 512) (lit "max_tokens") entries)
             (get_or (VFloat (S754_zero false)) (lit "temperature") entries)
             STOP = inr output ->
  stdout_of (fst (main W))
  = [VDict [(lit "success", VBool true);
            (lit "predicted_content", VStr (text output));
            (lit "file_path", path);
            (lit "latency_ms", VInt (elapsed_ms W));
            (lit "tokens_generated", VInt (completion_tokens output))]] /\
  exit_code (main W) = 0.
Proof.
  intros Hread Hblank Hloads Hpath Hcontent Himport Hmodel Hprompt Hload Hcall.
  destruct (main_follows_predict W input_text entries Hread Hblank Hloads
              (has_key_found _ _ _ Hpath) Hcontent) as [_ Hout].
  pose proof (predict_ends W (VDict entries)) as Hends.
  pose proof (predict_with_working_runtime W entries model_path prompt output
                path Himport Hmodel Hprompt Hload Hcall Hpath) as H.
  destruct (predict W (VDict entries)) as [t r]. simpl in H. subst r.
  simpl in Hends, Hout. destruct Hends as [Hquiet _].
  now rewrite Hquiet in Hout.
Qed.


(** ** Requests of unexpected shape *)















(** ** What is printed, and when *)

Lemma get_model_path_print (W : World) (v : value) :
  In (Print Stdout v) (fst (get_model_path W)) -> registry_error v.
Proof.
  intros Hin. apply in_stdout_of in Hin.
  pose proof (get_model_path_ends W) as Hends.
  destruct (get_model_path W) as [t [p|e|code]]; simpl in *.
  - destruct Hends as [Hquiet _]. rewrite Hquiet in Hin. now destruct Hin.
  - rewrite Hends in Hin. now destruct Hin.
  - destruct Hends as (_ & v' & Hv & Herr). rewrite Hv in Hin.
    destruct Hin as [<-|[]]. exact Herr.
Qed.

Lemma predict_print (W : World) (input_data : value) (v : value) :
  In (Print Stdout v) (fst (predict W input_data)) -> registry_error v.
Proof.
  intros Hin.
  apply predict_event in Hin as [H|[_ [Hin|Hgen]]]; [discriminate| |].
  - now apply get_model_path_print in Hin.
  - destruct Hgen as (model_path & prompt & _ & _ & Hin).
    apply generate_event in Hin as [H|[_ (limit & temp & _ & _ & H)]];
      discriminate.
Qed.

Lemma predict_returned (W : World) (input_data : value) (v : value) :
  snd (predict W input_data) = Returned v ->
  v = llama_missing_error \/
  (exists e, v = prediction_failed_error e) \/
  exists prompt, predict_prompt input_data = Ok prompt.
Proof.
  unfold predict. rewrite snd_bind, snd_try, snd_bind. cbn [command snd].
  destruct (import_module W (lit "llama_cpp")) as [e|].
  - destruct (is_ImportError e); [|discriminate].
    cbn [ret snd]. intros H. injection H as <-. now left.
  - cbn [ret snd]. rewrite snd_bind.
    destruct (snd (get_model_path W)) as [model_path|e|code];
      [|discriminate|discriminate].
    rewrite snd_bind.
    destruct (predict_prompt input_data) as [prompt|e] eqn:Hprompt;
      [|discriminate].
    intros _. right. right. now exists prompt.
Qed.

(** A line on standard output is an envelope of [main], an envelope of
    [get_model_path], or what [predict] returned for the parsed input. *)
Lemma main_print (W : World) (v : value) :
  In (Print Stdout v) (fst (main W)) ->
  protocol_error v \/ registry_error v \/
  exists input_text input_data,
    stdin_read W = inr input_text /\
    json_loads input_text = inr input_data /\
    snd (predict W input_data) = Returned v.
Proof.
  unfold main. intros H.
  apply in_try in H as [H|(e & h & _ & Hh & H)].
  2:{ left. unfold report_failure in Hh.
      destruct (is_JSONDecodeError e); injection Hh as <-;
        destruct H as [H|[]]; injection H as <-;
        right; right; [left|right]; now exists e. }
  apply in_bind in H as [H|(input_text & Hread & H)];
    [apply in_call in H; discriminate|].
  apply snd_call in Hread.
  apply in_bind in H as [H|(u & _ & H)].
  { destruct (is_empty (strip input_text)); [|now destruct H].
    destruct H as [H|[]]. injection H as <-. left. now left. }
  apply in_bind in H as [H|(input_data & Hloads & H)];
    [apply in_call in H; discriminate|].
  apply snd_call in Hloads.
  assert (Hfield : forall key,
             In (Print Stdout v) (fst (require_field key input_data)) ->
             protocol_error v).
  { intros key Hin. unfold require_field in Hin.
    apply in_bind in Hin as [Hin|(present & _ & Hin)];
      [now apply in_lift in Hin|].
    destruct present; [now destruct Hin|].
    destruct Hin as [Hin|[]]. injection Hin as <-.
    right. left. now exists key. }
  apply in_bind in H as [H|(u1 & _ & H)]; [left; now apply Hfield in H|].
  apply in_bind in H as [H|(u2 & _ & H)]; [left; now apply Hfield in H|].
  apply in_bind in H as [H|(result & Hresult & H)].
  - right. left. now apply predict_print in H.
  - destruct H as [H|[]]. injection H as <-.
    right. right. now exists input_text, input_data.
Qed.

(** X10.  Only a JSON object can be predicted on.  When the document on
    standard input parses to anything else (an array or a string may
    even pass the two membership tests), the model is never loaded, the
    runtime is never called, and whatever is written to standard output
    is an error envelope, not a prediction result. *)
Theorem only_objects_are_predicted (W : World) (input_text : pystr)
    (input_data : value) :
  stdin_read W = inr input_text ->
  json_loads input_text = inr input_data ->
  is_object input_data = false ->
  (forall v, In (Print Stdout v) (fst (main W)) ->
             is_error_envelope v = true /\ is_prediction_result v = false) /\
  (forall path n_ctx threads,
      ~ In (LlamaLoad path n_ctx threads) (fst (main W))) /\
  (forall prompt limit temp stop,
      ~ In (LlamaCall prompt limit temp stop) (fst (main W))).
Proof.
  intros Hread Hloads Hshape.
  assert (Hprompt : forall prompt, predict_prompt input_data <> Ok prompt).
  { intros prompt H. apply predict_prompt_needs_object in H as [entries ->].
    discriminate. }
  assert (Hstage : forall ev,
             In ev (fst (main W)) ->
             (forall path n_ctx threads, ev <> LlamaLoad path n_ctx threads) /\
             (forall prompt limit temp stop,
                 ev <> LlamaCall prompt limit temp stop)).
  { intros ev Hin.
    apply main_event in Hin
      as [->|[[v ->]|(text' & Hread' & _ & [->|Hpredict])]];
      try (split; discriminate).
    destruct Hpredict as (data' & Hloads' & _ & _ & Hin).
    rewrite Hread in Hread'. injection Hread' as <-.
    rewrite Hloads in Hloads'. injection Hloads' as <-.
    apply predict_event in Hin as [->|[_ [Hin|Hgen]]];
      try (split; discriminate).
    - apply get_model_path_event in Hin as [->|[_ [->|[Hin|[v ->]]]]];
        try (split; discriminate).
      apply download_model_event in Hin
        as [->|[_ [->|[_ [->|(p & _ & ->)]]]]]; split; discriminate.
    - destruct Hgen as (model_path & prompt & _ & Hbuilt & _).
      now destruct (Hprompt prompt). }
  split; [|split].
  - intros v Hin.
    apply main_print in Hin as [Herr|[Herr|Hpredict]].
    + destruct Herr as [->|[[f ->]|[[e ->]|[e ->]]]]; now split.
    + destruct Herr as [->|[e ->]]; now split.
    + destruct Hpredict as (text' & data' & Hread' & Hloads' & Hret).
      rewrite Hread in Hread'. injection Hread' as <-.
      rewrite Hloads in Hloads'. injection Hloads' as <-.
      apply predict_returned in Hret as [->|[[e ->]|[prompt Hbuilt]]];
        [now split|now split|now destruct (Hprompt prompt)].
  - intros path n_ctx threads Hin.
    now apply (proj1 (Hstage _ Hin) path n_ctx threads).
  - intros prompt limit temp stop Hin.
    now apply (proj2 (Hstage _ Hin) prompt limit temp stop).
Qed.


(** ** When build_prompt returns a prompt *)










(** ** The number of delimiter tokens *)

Lemma starts_with_before_char (pat a b : pystr) (c : char) :
  ~ In c pat -> pat <> [] ->
  starts_with pat (a ++ c :: b) = starts_with pat a.
Proof.
  revert a; induction pat as [|p pat IH]; intros a Hc Hne; [congruence|].
  destruct a as [|x a]; simpl.
  - destruct (N.eqb_spec p c) as [E|_]; [|reflexivity].
    exfalso. apply Hc. now left.
  - destruct (N.eqb p x); simpl; [|reflexivity].
    destruct pat as [|q pat]; [reflexivity|].
    apply IH; [|discriminate].
    intros Hin. apply Hc. now right.
Qed.

(** No occurrence of a pattern reaches across, or starts at, a character
    the pattern does not contain. *)
Lemma count_sub_across_char (pat a b : pystr) (c : char) :
  ~ In c pat -> pat <> [] ->
  count_sub pat (a ++ c :: b) = (count_sub pat a + count_sub pat b)%nat.
Proof.
  intros Hc Hne. induction a as [|x a IH].
  - destruct pat as [|p pat]; [congruence|].
    simpl. destruct (N.eqb_spec p c) as [E|_]; [|reflexivity].
    exfalso. apply Hc. now left.
  - change ((x :: a) ++ c :: b) with (x :: (a ++ c :: b)).
    change (count_sub pat (x :: a ++ c :: b))
      with ((if starts_with pat (x :: a ++ c :: b) then 1 else 0)
            + count_sub pat (a ++ c :: b))%nat.
    change (count_sub pat (x :: a))
      with ((if starts_with pat (x :: a) then 1 else 0)
            + count_sub pat a)%nat.
    rewrite IH.
    change (x :: a ++ c :: b) with ((x :: a) ++ c :: b).
    rewrite (starts_with_before_char pat (x :: a) b c Hc Hne).
    lia.
Qed.

Lemma count_after_token (s : pystr) :
  count_sub FILE_SEP (FILE_SEP ++ s) = S (count_sub FILE_SEP s).
Proof.
  change (count_sub FILE_SEP (FILE_SEP ++ s))
    with ((if starts_with FILE_SEP (FILE_SEP ++ s) then 1 else 0)
          + count_sub FILE_SEP (tl FILE_SEP ++ s))%nat.
  rewrite starts_with_app, count_sub_skip_all; [reflexivity|].
  cbv. repeat constructor; discriminate.
Qed.

Lemma count_line (line rest : pystr) :
  count_sub FILE_SEP (line ++ NL ++ rest)
  = (count_sub FILE_SEP line + count_sub FILE_SEP rest)%nat.
Proof.
  apply count_sub_across_newline;
    [apply FILE_SEP_one_line|apply FILE_SEP_not_empty].
Qed.

Lemma count_section (name body rest : pystr) :
  token_free name -> token_free body ->
  count_sub FILE_SEP (section_text name body ++ rest)
  = S (count_sub FILE_SEP rest).
Proof.
  intros Hname Hbody. unfold section_text.
  replace ((FILE_SEP ++ name ++ NL ++ body ++ NL) ++ rest)
    with (FILE_SEP ++ name ++ NL ++ body ++ NL ++ rest)
    by now rewrite <- !app_assoc.
  rewrite count_after_token, !count_line.
  now rewrite (count_sub_absent _ _ Hname), (count_sub_absent _ _ Hbody).
Qed.

Lemma token_free_with_prefix (name : string) (path : pystr) :
  forallb (fun c => negb (c =? 60)%N) (lit name) = true ->
  token_free path -> token_free (lit name ++ path).
Proof.
  intros Hname Hpath. unfold token_free.
  destruct (is_substring FILE_SEP (lit name ++ path)) eqn:E; [|reflexivity].
  assert (Hcount : count_sub FILE_SEP (lit name ++ path) = 0%nat).
  { rewrite count_sub_skip_all
      by now apply literal_has_no_token_start.
    now apply count_sub_absent. }
  exfalso. clear Hname Hpath. revert E Hcount.
  generalize (lit name ++ path). intros s.
  induction s as [|c s IH]; intros E Hcount.
  - discriminate E.
  - change (is_substring FILE_SEP (c :: s))
      with (starts_with FILE_SEP (c :: s) || is_substring FILE_SEP s) in E.
    change (count_sub FILE_SEP (c :: s))
      with ((if starts_with FILE_SEP (c :: s) then 1 else 0)
            + count_sub FILE_SEP s)%nat in Hcount.
    destruct (starts_with FILE_SEP (c :: s)); [discriminate Hcount|].
    now apply IH.
Qed.

Lemma count_diff_section (d : Diff) (rest : pystr) :
  diff_token_free d ->
  count_sub FILE_SEP (diff_section d ++ rest) = S (count_sub FILE_SEP rest).
Proof.
  intros (Hpath & Horiginal & Hupdated). unfold diff_section.
  replace ((FILE_SEP ++ diff_file_path d ++ lit ".diff" ++ NL ++
            lit "original:" ++ NL ++ diff_original d ++ NL ++
            lit "updated:" ++ NL ++ diff_updated d ++ NL) ++ rest)
    with (FILE_SEP ++
          (diff_file_path d ++ 46%N :: lit "diff") ++ NL ++
          lit "original:" ++ NL ++ diff_original d ++ NL ++
          lit "updated:" ++ NL ++ diff_updated d ++ NL ++ rest).
  2:{ change (lit ".diff") with (46%N :: lit "diff").
      now rewrite <- !app_assoc. }
  rewrite count_after_token, !count_line.
  rewrite count_sub_across_char;
    [|cbv; intros H;
      repeat (destruct H as [H|H]; [discriminate H|]); exact H
     |apply FILE_SEP_not_empty].
  rewrite (count_sub_absent _ _ Hpath), (count_sub_absent _ _ Horiginal),
          (count_sub_absent _ _ Hupdated).
  reflexivity.
Qed.

Lemma count_serialized_prompt (files : list (pystr * pystr))
    (diffs : list Diff) (path original current : pystr) :
  Forall (fun entry => token_free (fst entry) /\ token_free (snd entry))
         files ->
  Forall diff_token_free diffs ->
  token_free path -> token_free original -> token_free current ->
  count_sub FILE_SEP (serialized_prompt files diffs path original current)
  = (List.length files + List.length diffs + 3)%nat.
Proof.
  intros Hfiles Hdiffs Hpath Horiginal Hcurrent. unfold serialized_prompt.
  induction Hfiles as [|[name body] files [Hname Hbody] _ IH].
  - cbn [List.map List.concat app List.length].
    induction Hdiffs as [|d diffs Hd _ IHd].
    + cbn [List.map List.concat app List.length].
      rewrite !count_section; try assumption;
        try (now apply token_free_with_prefix).
      rewrite count_after_token.
      now rewrite (count_sub_absent _ _
                     (token_free_with_prefix "updated/" path eq_refl Hpath)).
    + cbn [List.map List.concat List.length]. rewrite <- app_assoc.
      rewrite (count_diff_section d _ Hd), IHd. reflexivity.
  - cbn [List.map List.concat List.length]. rewrite <- app_assoc.
    unfold context_section at 1. cbn [fst snd].
    rewrite (count_section name body _ Hname Hbody), IH. reflexivity.
Qed.

(** X13.  One delimiter token per section.  For a request whose fields
    are strings none of which holds the token itself, the prompt holds
    the token exactly once for every context file, once for every recent
    diff, and three times for the original, current and updated
    sections. *)
Theorem delimiter_token_count
    (files : list (pystr * pystr)) (items : list value) (diffs : list Diff)
    (path original current : pystr) :
  Forall2 is_diff items diffs ->
  Forall (fun entry => token_free (fst entry) /\ token_free (snd entry))
         files ->
  Forall diff_token_free diffs ->
  token_free path -> token_free original -> token_free current ->
  exists prompt,
    build_prompt (context_value files) (VList items)
                 (VStr path) (VStr original) (VStr current) = Ok prompt /\
    count_sub FILE_SEP prompt = (List.length files + List.length diffs + 3)%nat.
Proof.
  intros Hitems Hfiles Hdiffs Hpath Horiginal Hcurrent.
  exists (serialized_prompt files diffs path original current).
  split; [now apply build_prompt_typed|].
  now apply count_serialized_prompt.
Qed.

(** ** The permission hook *)

(** The runs of [hook_main], case by case. *)
Lemma hook_main_runs (H : HookWorld) :
  hook_main H
  = if hook_inactive H then ([], Exited 0)
    else
      match hook_stdin H with
      | inl e =>
          ([StdinRead], if is_JSONDecodeError e then Exited 0 else Raised e)
      | inr input_text =>
          match json_loads input_text with
          | inl e =>
              ([StdinRead; JsonLoads input_text],
               if is_JSONDecodeError e then Exited 0 else Raised e)
          | inr (VDict entries) =>
              if py_eq_str (get_or (VStr []) (lit "tool_name") entries)
                           (lit "AskUserQuestion")
              then ([StdinRead; JsonLoads input_text;
                     Print Stdout deny_output], Exited 0)
              else ([StdinRead; JsonLoads input_text], Exited 0)
          | inr other =>
              ([StdinRead; JsonLoads input_text],
               Raised (mk_exception AttributeError
                         (fault_text (NoAttribute other (lit "get")))))
          end
      end.
Proof.
  unfold hook_main, json_load_stdin.
  destruct (hook_inactive H); [reflexivity|].
  destruct (hook_stdin H) as [e|input_text].
  { cbn [call bind try_except]. now destruct (is_JSONDecodeError e). }
  rewrite bind_call_returned.
  destruct (json_loads input_text) as [e|input_data].
  { cbn [call after fst snd app try_except bind].
    now destruct (is_JSONDecodeError e). }
  cbn [call after fst snd app try_except bind].
  destruct input_data; try reflexivity.
  rewrite py_get_object, bind_lift_ok.
  now destruct (py_eq_str (get_or (VStr []) (lit "tool_name") entries)
                          (lit "AskUserQuestion")).
Qed.



(** X15.  Exit status of the hook.  With the variable unset or different
    from [1] the hook exits with 0 without reading standard input.  When
    switched on, it exits with 0 on text [json.loads] rejects with a
    [JSONDecodeError] and on every JSON object; a document that parses to
    something else than an object makes [input_data.get] raise, the
    exception is not caught, and the exit status is 1 with nothing on
    standard output. *)
Theorem hook_exit_status (H : HookWorld) :
  (hook_inactive H = true -> hook_main H = ([], Exited 0)) /\
  (forall input_text e,
      hook_inactive H = false ->
      hook_stdin H = inr input_text ->
      json_loads input_text = inl e ->
      is_JSONDecodeError e = true ->
      hook_main H = ([StdinRead; JsonLoads input_text], Exited 0)) /\
  (forall input_text entries,
      hook_inactive H = false ->
      hook_stdin H = inr input_text ->
      json_loads input_text = inr (VDict entries) ->
      exit_code (hook_main H) = 0) /\
  (forall input_text input_data,
      hook_inactive H = false ->
      hook_stdin H = inr input_text ->
      json_loads input_text = inr input_data ->
      is_object input_data = false ->
      exit_code (hook_main H) = 1 /\
      stdout_of (fst (hook_main H)) = []).
Proof.
  rewrite hook_main_runs. split; [|split; [|split]].
  - now intros ->.
  - intros input_text e -> -> ->. now intros ->.
  - intros input_text entries -> -> ->.
    now destruct (py_eq_str _ _).
  - intros input_text input_data -> -> -> Hshape.
    now destruct input_data.
Qed.

End Script.

(** * Concrete runs *)

(** The end-to-end example of the specification: the request for [a.py]
    against a runtime that answers ["    return 1\n"]. *)
Example end_to_end :
  let run := main sample_loads sample_format sample_fault_text
                  (warm_world plain_request_text) in
  stdout_of (fst run)
  = [prediction_result (lit "    return 1" ++ NL) (VStr (lit "a.py")) 12 4] /\
  stderr_of (fst run) = [] /\
  exit_code run = 0.
Proof. repeat split. Qed.



Lemma sample_diff_is_diff : is_diff (diff_value sample_diff) sample_diff.
Proof. eexists. repeat split. Defined.

Lemma build_prompt_serialization_witness :
  Forall2 is_diff [diff_value sample_diff] [sample_diff] /\
  build_prompt sample_format sample_fault_text
    (context_value [(lit "lib.py", lit "import os")])
    (VList [diff_value sample_diff])
    (VStr (lit "a.py")) (VStr (lit "x = 1")) (VStr (lit "x = 2"))
  = Ok (lit "<|file_sep|>lib.py
import os
<|file_sep|>b.py.diff
original:
y = 1
updated:
y = 2
<|file_sep|>original/a.py
x = 1
<|file_sep|>current/a.py
x = 2
<|file_sep|>updated/a.py").
Proof.
  assert (H : Forall2 is_diff [diff_value sample_diff] [sample_diff]).
  { repeat constructor. exact sample_diff_is_diff. }
  split; [exact H|].
  exact (build_prompt_serialization sample_format sample_fault_text
           [(lit "lib.py", lit "import os")] [diff_value sample_diff]
           [sample_diff] (lit "a.py") (lit "x = 1") (lit "x = 2") H).
Defined.

Lemma full_request_represents :
  represents full_request (full_request_typed None) /\
  represents full_request_again (full_request_typed (Some 64)).
Proof.
  split.
  - repeat split; try reflexivity.
    + now left.
    + left. exists [diff_value sample_diff]. split; [reflexivity|].
      repeat constructor. exact sample_diff_is_diff.
  - repeat split; try reflexivity.
    + now left.
    + left. eexists. split; [reflexivity|].
      repeat constructor. eexists. repeat split.
Defined.

Lemma prompt_determined_by_fields_witness :
  exists prompt,
    predict_prompt sample_format sample_fault_text (VDict full_request)
    = Ok prompt /\
    predict_prompt sample_format sample_fault_text (VDict full_request_again)
    = Ok prompt.
Proof.
  exact (prompt_determined_by_fields sample_format sample_fault_text
           full_request full_request_again
           (full_request_typed None) (full_request_typed (Some 64))
           (proj1 full_request_represents) (proj2 full_request_represents)
           eq_refl eq_refl eq_refl eq_refl eq_refl).
Defined.

Lemma empty_context_three_sections_witness :
  exists prompt,
    build_prompt sample_format sample_fault_text (VDict []) (VList [])
                 (VStr (lit "a.py")) (VStr (lit "x = 1")) (VStr (lit "x = 2"))
    = Ok prompt /\
    prompt = lit "<|file_sep|>original/a.py
x = 1
<|file_sep|>current/a.py
x = 2
<|file_sep|>updated/a.py" /\
    count_sub FILE_SEP prompt = 3%nat.
Proof.
  destruct (empty_context_three_sections sample_format sample_fault_text
              (lit "a.py") (lit "x = 1") (lit "x = 2"))
    as (prompt & Hbuilt & _ & Hshape & Hcount).
  exists prompt. split; [exact Hbuilt|]. split.
  - rewrite Hshape. reflexivity.
  - exact (Hcount eq_refl eq_refl eq_refl).
Defined.



Lemma plain_request_represents : represents plain_request plain_request_typed.
Proof. repeat split; try reflexivity; now right. Defined.

Lemma original_defaults_to_current_witness :
  lookup (lit "original_content") plain_request = None /\
  predict_prompt sample_format sample_fault_text (VDict plain_request)
  = Ok (lit "<|file_sep|>original/a.py
def f():
    pass

<|file_sep|>current/a.py
def f():
    pass

<|file_sep|>updated/a.py").
Proof.
  split; [reflexivity|].
  exact (proj2 (original_defaults_to_current sample_format sample_fault_text
                  plain_request eq_refl)
               plain_request_typed plain_request_represents).
Defined.

Lemma cached_model_is_reused_witness :
  let W := warm_world plain_request_text in
  path_exists W (path_join (MODEL_DIR W) MODEL_FILENAME) = true /\
  get_model_path W = ([PathExists sample_model_path], Returned sample_model_path) /\
  Forall (fun ev => touches_registry ev = false)
         (fst (main sample_loads sample_format sample_fault_text W)).
Proof.
  split; [reflexivity|].
  exact (cached_model_is_reused sample_loads sample_format sample_fault_text
           (warm_world plain_request_text) eq_refl).
Defined.

Lemma validation_tests_presence_only_witness :
  let W := without_module (lit "llama_cpp") (warm_world null_request_text) in
  let run := main sample_loads sample_format sample_fault_text W in
  sample_loads null_request_text
  = inr (VDict [(lit "file_path", VNull); (lit "current_content", VNull)]) /\
  In (Import (lit "llama_cpp")) (fst run) /\
  (exists v, stdout_of (fst run) = [v] /\
             error_kind v <> Some (VStr (lit "missing_field"))).
Proof.
  split; [reflexivity|].
  exact (proj2 (validation_tests_presence_only sample_loads sample_format
                  sample_fault_text
                  (without_module (lit "llama_cpp")
                     (warm_world null_request_text))
                  null_request_text null_request VNull VNull
                  eq_refl eq_refl eq_refl eq_refl eq_refl)).
Defined.

(** * Concrete runs for the further properties *)

Lemma prediction_stage_needs_valid_request_witness :
  let W := warm_world plain_request_text in
  In (PathExists sample_model_path)
     (fst (main sample_loads sample_format sample_fault_text W)) /\
  exists input_text input_data,
    stdin_read W = inr input_text /\
    forallb is_space input_text = false /\
    sample_loads input_text = inr input_data /\
    py_contains sample_fault_text (lit "file_path") input_data = Ok true /\
    py_contains sample_fault_text (lit "current_content") input_data = Ok true.
Proof.
  assert (Hin : In (PathExists sample_model_path)
                   (fst (main sample_loads sample_format sample_fault_text
                              (warm_world plain_request_text)))).
  { do 3 right. now left. }
  split; [exact Hin|].
  exact (prediction_stage_needs_valid_request sample_loads sample_format
           sample_fault_text (warm_world plain_request_text)
           (PathExists sample_model_path) Hin eq_refl).
Defined.

Lemma download_only_when_needed_witness :
  let W := with_cold_cache (warm_world plain_request_text) in
  In (HfHubDownload MODEL_REPO MODEL_FILENAME (MODEL_DIR W))
     (fst (main sample_loads sample_format sample_fault_text W)) /\
  path_exists W (path_join (MODEL_DIR W) MODEL_FILENAME) = false /\
  import_module W (lit "llama_cpp") = None /\
  import_module W (lit "huggingface_hub") = None /\
  mkdir W (MODEL_DIR W) = None.
Proof.
  assert (Hin : In (HfHubDownload MODEL_REPO MODEL_FILENAME
                      (MODEL_DIR (with_cold_cache
                                    (warm_world plain_request_text))))
                   (fst (main sample_loads sample_format sample_fault_text
                              (with_cold_cache
                                 (warm_world plain_request_text))))).
  { do 7 right. now left. }
  split; [exact Hin|].
  exact (proj2 (proj2 (proj2
           (download_only_when_needed sample_loads sample_format
              sample_fault_text
              (with_cold_cache (warm_world plain_request_text))
              _ _ _ Hin)))).
Defined.

Lemma runtime_is_called_with_request_prompt_witness :
  let W := warm_world plain_request_text in
  let prompt := lit "<|file_sep|>original/a.py
def f():
    pass

<|file_sep|>current/a.py
def f():
    pass

<|file_sep|>updated/a.py" in
  In (LlamaCall prompt (VInt 512) (VFloat (S754_zero false))
                [lit "<|file_sep|>"; lit "</s>"])
     (fst (main sample_loads sample_format sample_fault_text W)) /\
  exists input_text entries,
    stdin_read W = inr input_text /\
    sample_loads input_text = inr (VDict entries) /\
    predict_prompt sample_format sample_fault_text (VDict entries)
    = Ok prompt /\
    VInt 512 = get_or (VInt 512) (lit "max_tokens") entries /\
    VFloat (S754_zero false)
    = get_or (VFloat (S754_zero false)) (lit "temperature") entries /\
    [lit "<|file_sep|>"; lit "</s>"] = [lit "<|file_sep|>"; lit "</s>"].
Proof.
  cbv zeta.
  match goal with |- ?A /\ _ => assert (Hin : A) by (do 5 right; now left) end.
  split; [exact Hin|].
  exact (runtime_is_called_with_request_prompt sample_loads sample_format
           sample_fault_text (warm_world plain_request_text) _ _ _ _ Hin).
Defined.


Lemma successful_prediction_witness :
  let run := main sample_loads sample_format sample_fault_text
                  (with_cold_cache (warm_world plain_request_text)) in
  stdout_of (fst run)
  = [VDict [(lit "success", VBool true);
            (lit "predicted_content", VStr (lit "    return 1" ++ NL));
            (lit "file_path", VStr (lit "a.py"));
            (lit "latency_ms", VInt 12);
            (lit "tokens_generated", VInt 4)]] /\
  exit_code run = 0.
Proof.
  exact (successful_prediction sample_loads sample_format sample_fault_text
           (with_cold_cache (warm_world plain_request_text))
           plain_request_text plain_request sample_model_path
           (serialized_prompt [] [] (lit "a.py")
              (lit "def f():" ++ NL ++ lit "    pass" ++ NL)
              (lit "def f():" ++ NL ++ lit "    pass" ++ NL))
           (mk_completion (lit "    return 1" ++ NL) 4) (VStr (lit "a.py"))
           eq_refl eq_refl eq_refl eq_refl eq_refl eq_refl eq_refl eq_refl
           eq_refl eq_refl).
Defined.




Lemma only_objects_are_predicted_witness :
  let run := main more_loads sample_format sample_fault_text
                  (warm_world key_array_text) in
  In (Import (lit "llama_cpp")) (fst run) /\
  (forall v, In (Print Stdout v) (fst run) ->
             is_error_envelope v = true /\ is_prediction_result v = false) /\
  (forall path n_ctx threads, ~ In (LlamaLoad path n_ctx threads) (fst run)).
Proof.
  split; [do 2 right; now left|].
  destruct (only_objects_are_predicted more_loads sample_format
              sample_fault_text (warm_world key_array_text) key_array_text
              (VList [VStr (lit "file_path"); VStr (lit "current_content")])
              eq_refl eq_refl eq_refl) as (Hout & Hload & _).
  now split.
Defined.



Lemma delimiter_token_count_witness :
  exists prompt,
    build_prompt sample_format sample_fault_text
      (context_value [(lit "lib.py", lit "import os")])
      (VList [diff_value sample_diff])
      (VStr (lit "a.py")) (VStr (lit "x = 1")) (VStr (lit "x = 2"))
    = Ok prompt /\
    count_sub FILE_SEP prompt = 5%nat.
Proof.
  apply (delimiter_token_count sample_format sample_fault_text
           [(lit "lib.py", lit "import os")] [diff_value sample_diff]
           [sample_diff] (lit "a.py") (lit "x = 1") (lit "x = 2")).
  - repeat constructor. exact sample_diff_is_diff.
  - repeat constructor.
  - repeat constructor.
  - reflexivity.
  - reflexivity.
  - reflexivity.
Defined.


Lemma hook_exit_status_witness :
  hook_main more_loads sample_fault_text (hook_off array_text)
  = ([], Exited 0) /\
  hook_main more_loads sample_fault_text (hook_on (lit "hello"))
  = ([StdinRead; JsonLoads (lit "hello")], Exited 0) /\
  exit_code (hook_main more_loads sample_fault_text (hook_on tool_call_text))
  = 0 /\
  exit_code (hook_main more_loads sample_fault_text (hook_on array_text)) = 1.
Proof.
  split; [|split; [|split]].
  - exact (proj1 (hook_exit_status more_loads sample_fault_text
                    (hook_off array_text)) eq_refl).
  - exact (proj1 (proj2 (hook_exit_status more_loads sample_fault_text
                           (hook_on (lit "hello"))))
                 (lit "hello")
                 (mk_exception JSONDecodeError
                    (lit "Expecting value: line 1 column 1 (char 0)"))
                 eq_refl eq_refl eq_refl eq_refl).
  - exact (proj1 (proj2 (proj2 (hook_exit_status more_loads sample_fault_text
                                  (hook_on tool_call_text))))
                 tool_call_text
                 [(lit "tool_name", VStr (lit "AskUserQuestion"))]
                 eq_refl eq_refl eq_refl).
  - exact (proj1 (proj2 (proj2 (proj2
                    (hook_exit_status more_loads sample_fault_text
                       (hook_on array_text))))
                    array_text (VList [VInt 1; VInt 2])
                    eq_refl eq_refl eq_refl eq_refl)).
Defined.
